(** * JARVIS frontend: API client, page state and route table

    A shallow embedding of the TypeScript frontend of the JARVIS desktop
    assistant: the axios based [ApiService] (services/api.ts), the pages
    [Chat], [Dashboard] and [SystemInfo], the route table of [App] and the
    sidebar of [Layout].

    TypeScript types are erased at run time, so values that cross the HTTP
    boundary are modelled dynamically ([Js.Value]); asynchronous functions
    are split at their [await] into the part that runs before the promise
    settles and the part that runs after it. *)

From Stdlib Require Import ZArith List String Ascii Bool Lia DecimalString DecimalZ.
From stdpp Require Import base list strings.
Import ListNotations.

#[local] Set Warnings "-register-all".

(* ================================================================== *)
(** ** JavaScript values, strings and errors *)
(* ================================================================== *)

Module Js.

(** JSON-like run-time values.  Numbers are restricted to integers; an
    object is the list of its own properties in insertion order. *)
Inductive Value : Type :=
| Undefined
| Null
| Boolean (b : bool)
| Number (n : Z)
| Str (s : string)
| Arr (items : list Value)
| Obj (props : list (string * Value)).

(** ToBoolean. *)
Definition truthy (v : Value) : bool :=
  match v with
  | Undefined | Null => false
  | Boolean b => b
  | Number n => negb (n =? 0)%Z
  | Str s => negb (s =? "")%string
  | Arr _ | Obj _ => true
  end.

(** [a || b] and [a && b]. *)
Definition or (a b : Value) : Value := if truthy a then a else b.
Definition and (a b : Value) : Value := if truthy a then b else a.

(** [error.response] of an axios error: the status and the parsed body. *)
Record ErrorResponse : Type := {
  err_status : Z;
  err_data : Value
}.

(** Thrown values.  An [AxiosError] has a [response] when the server
    answered (with a status outside 2xx) and none when the request never
    got an answer (network failure, timeout). *)
Inductive Error : Type :=
| AxiosError (message : string) (response : option ErrorResponse)
| TypeError (message : string).

Definition message (e : Error) : string :=
  match e with
  | AxiosError m _ => m
  | TypeError m => m
  end.

(** [error.response?.data] *)
Definition response_data (e : Error) : Value :=
  match e with
  | AxiosError _ (Some r) => err_data r
  | _ => Undefined
  end.

(** A settled promise, or the outcome of a block that may throw. *)
Inductive Settled (A : Type) : Type :=
| Fulfilled (a : A)
| Rejected (e : Error).
Arguments Fulfilled {A} a.
Arguments Rejected {A} e.

Definition bind {A B} (m : Settled A) (k : A -> Settled B) : Settled B :=
  match m with
  | Fulfilled a => k a
  | Rejected e => Rejected e
  end.

Fixpoint lookup_prop (k : string) (ps : list (string * Value)) : Value :=
  match ps with
  | [] => Undefined
  | (k', v) :: rest => if (k =? k')%string then v else lookup_prop k rest
  end.

(** [v.k] for the property names this program reads (success, data,
    error, message, response, action): none of them is defined on a
    built-in prototype, so only own properties of objects are found, and
    reading a property of null or undefined throws. *)
Definition get (v : Value) (k : string) : Settled Value :=
  match v with
  | Undefined => Rejected (TypeError ("Cannot read properties of undefined (reading '" +:+ k +:+ "')"))
  | Null => Rejected (TypeError ("Cannot read properties of null (reading '" +:+ k +:+ "')"))
  | Obj ps => Fulfilled (lookup_prop k ps)
  | _ => Fulfilled Undefined
  end.

(** [v?.k] *)
Definition get_opt (v : Value) (k : string) : Value :=
  match v with
  | Obj ps => lookup_prop k ps
  | _ => Undefined
  end.

(** The keys of an object literal, in the order written. *)
Definition keys (v : Value) : list string :=
  match v with
  | Obj ps => map fst ps
  | _ => []
  end.

(** Optional arguments: an omitted argument is [undefined]. *)
Definition opt {A} (inj : A -> Value) (o : option A) : Value :=
  match o with
  | Some a => inj a
  | None => Undefined
  end.

Definition strings (l : list string) : Value := Arr (map Str l).

(** Strings are sequences of code units below 256 (the Latin-1 part of a
    JavaScript string), which covers every literal of the program. *)

(** [Number.prototype.toString] on an integer. *)
Definition toString (n : Z) : string := NilZero.string_of_int (Z.to_int n).

(** Template literal interpolation of a possibly undefined string. *)
Definition interpolate (o : option string) : string :=
  match o with
  | Some s => s
  | None => "undefined"
  end.

(** WhiteSpace and LineTerminator code units: TAB, LF, VT, FF, CR, SP and
    NBSP. *)
Definition isWhiteSpace (c : ascii) : bool :=
  let n := nat_of_ascii c in
  ((9 <=? n) && (n <=? 13)) || (n =? 32) || (n =? 160).

Fixpoint trimStart (s : string) : string :=
  match s with
  | EmptyString => EmptyString
  | String c rest => if isWhiteSpace c then trimStart rest else s
  end.

Fixpoint trimEnd (s : string) : string :=
  match s with
  | EmptyString => EmptyString
  | String c rest =>
      match trimEnd rest with
      | EmptyString => if isWhiteSpace c then EmptyString else String c EmptyString
      | rest' => String c rest'
      end
  end.

(** [String.prototype.trim] *)
Definition trim (s : string) : string := trimEnd (trimStart s).

(** A string as a condition: the empty string is falsy. *)
Definition nonEmpty (s : string) : bool := negb (s =? "")%string.

Definition upper (c : ascii) : ascii :=
  let n := nat_of_ascii c in
  if (97 <=? n) && (n <=? 122) then ascii_of_nat (n - 32) else c.

(** [String.prototype.toUpperCase] on ASCII letters (HTTP method names). *)
Fixpoint toUpperCase (s : string) : string :=
  match s with
  | EmptyString => EmptyString
  | String c rest => String (upper c) (toUpperCase rest)
  end.

Definition hexDigit (n : nat) : ascii :=
  ascii_of_nat (if n <? 10 then 48 + n else 55 + n).

Definition percent (byte : nat) : string :=
  String "%" (String (hexDigit (byte / 16)) (String (hexDigit (byte mod 16)) EmptyString)).

(** A-Z a-z 0-9 - _ . ! ~ * ' ( ) *)
Definition isUnreserved (c : ascii) : bool :=
  let n := nat_of_ascii c in
  ((65 <=? n) && (n <=? 90)) || ((97 <=? n) && (n <=? 122)) ||
  ((48 <=? n) && (n <=? 57)) ||
  existsb (Nat.eqb n) [45; 95; 46; 33; 126; 42; 39; 40; 41].

(** [encodeURIComponent]: unreserved characters are kept, every other
    code unit is replaced by the percent-escapes of its UTF-8 bytes.  On
    the strings of this model the function always returns.  (A JavaScript
    string can also hold a lone surrogate, a code unit above 255, and on
    such a string [encodeURIComponent] throws a URIError: a method given
    such a path rejects before any request is made.  Those strings are
    outside the model.) *)
Fixpoint encodeURIComponent (s : string) : string :=
  match s with
  | EmptyString => EmptyString
  | String c rest =>
      let n := nat_of_ascii c in
      (if isUnreserved c then String c EmptyString
       else if n <? 128 then percent n
       else percent (192 + n / 64) +:+ percent (128 + n mod 64))
      +:+ encodeURIComponent rest
  end.

End Js.

Import Js.

(* ================================================================== *)
(** ** axios, as far as the API client relies on it *)
(* ================================================================== *)

Module Axios.

(** The request configuration: what [axios.create] and
    [client.request] are given, and what interceptors see.  The case
    normalisation axios applies to [method] internally is not modelled;
    the method on the wire is the upper-case one. *)
Record RequestConfig : Type := {
  baseURL : option string;
  timeout : option Z;
  headers : list (string * string);
  method : option string;
  url : option string;
  data : Value;
  params : Value
}.

Record Response : Type := {
  status : Z;
  r_data : Value;
  r_config : RequestConfig
}.

Inductive ConsoleArg : Type :=
| ArgValue (v : Value)
| ArgError (e : Error).

Inductive ConsoleEntry : Type :=
| console_log (msg : string)
| console_error (label : string) (arg : ConsoleArg).

(** What the network does with a request: the server answers with a
    status and a parsed body, or no answer arrives. *)
Inductive NetOutcome : Type :=
| HttpReply (status : Z) (body : Value)
| NoReply (message : string).

(** The backend is outside the program: the n-th request sent with a
    given configuration gets whatever outcome the network decides. *)
Definition Network : Type := nat -> RequestConfig -> NetOutcome.

(** The observable effects of the client: console output and the
    request configurations handed to the adapter, oldest first.  What
    the adapter and the browser make of a configuration on the wire is
    given further down: the body by [transformRequest], the headers by
    [wireHeaders], the path by [Url.resolve]. *)
Record World : Type := {
  console : list ConsoleEntry;
  sent : list RequestConfig
}.

Definition Eff (A : Type) : Type := World -> World * Settled A.

Definition ret {A} (a : A) : Eff A := fun w => (w, Fulfilled a).
Definition throw {A} (e : Error) : Eff A := fun w => (w, Rejected e).

(** [p.then(f, r)] *)
Definition then_ {A B} (p : Eff A) (f : A -> Eff B) (r : Error -> Eff B) : Eff B :=
  fun w =>
    match p w with
    | (w', Fulfilled a) => f a w'
    | (w', Rejected e) => r e w'
    end.

Definition bind {A B} (p : Eff A) (f : A -> Eff B) : Eff B := then_ p f throw.

(** [try { p } catch (error) { h error }] *)
Definition try_catch {A} (p : Eff A) (h : Error -> Eff A) : Eff A := then_ p ret h.

Definition log (e : ConsoleEntry) : Eff unit :=
  fun w => ({| console := console w ++ [e]; sent := sent w |}, Fulfilled tt).

Record Interceptor (V : Type) : Type := {
  onFulfilled : V -> Eff V;
  onRejected : Error -> Eff V
}.
Arguments onFulfilled {V} _ _ _.
Arguments onRejected {V} _ _ _.

Record Instance : Type := {
  defaults : RequestConfig;
  request_interceptors : list (Interceptor RequestConfig);
  response_interceptors : list (Interceptor Response)
}.

Definition or_else {A} (o d : option A) : option A :=
  match o with
  | Some a => Some a
  | None => d
  end.

(** Defaults are overridden by what the call provides; headers of both
    are kept. *)
Definition mergeConfig (d c : RequestConfig) : RequestConfig :=
  {| baseURL := or_else (baseURL c) (baseURL d);
     timeout := or_else (timeout c) (timeout d);
     headers := headers d ++ headers c;
     method := or_else (method c) (method d);
     url := url c;
     data := data c;
     params := params c |}.

(** validateStatus: 2xx resolves, anything else rejects. *)
Definition validateStatus (st : Z) : bool := ((200 <=? st) && (st <? 300))%Z.

Definition settle (cfg : RequestConfig) (o : NetOutcome) : Settled Response :=
  match o with
  | HttpReply st body =>
      if validateStatus st
      then Fulfilled {| status := st; r_data := body; r_config := cfg |}
      else Rejected (AxiosError ("Request failed with status code " +:+ toString st)
                                (Some {| err_status := st; err_data := body |}))
  | NoReply msg => Rejected (AxiosError msg None)
  end.

(** The adapter: the configuration is turned into an HTTP request,
    which is settled by the network. *)
Definition dispatchRequest (net : Network) (cfg : RequestConfig) : Eff Response :=
  fun w =>
    ({| console := console w; sent := sent w ++ [cfg] |},
     settle cfg (net (length (sent w)) cfg)).

Definition chain {V} (handlers : list (Interceptor V)) (p : Eff V) : Eff V :=
  fold_left (fun q h => then_ q (onFulfilled h) (onRejected h)) handlers p.

(** [instance.request(config)]: request interceptors (latest
    registered first), the adapter, response interceptors. *)
Definition request (inst : Instance) (net : Network) (c : RequestConfig) : Eff Response :=
  chain (response_interceptors inst)
        (bind (chain (rev (request_interceptors inst))
                     (ret (mergeConfig (defaults inst) c)))
              (dispatchRequest net)).

(** The defaults of the library itself: no time limit, and the Accept
    header every request gets. *)
Definition libraryDefaults : RequestConfig :=
  {| baseURL := None; timeout := Some 0%Z;
     headers := [("Accept", "application/json, text/plain, */*")];
     method := None; url := None; data := Undefined; params := Undefined |}.

(** [axios.create(config)] *)
Definition create (config : RequestConfig) : Instance :=
  {| defaults := mergeConfig libraryDefaults config;
     request_interceptors := [];
     response_interceptors := [] |}.

(** [instance.interceptors.request.use(f, r)] and
    [instance.interceptors.response.use(f, r)] *)
Definition useRequest (h : Interceptor RequestConfig) (inst : Instance) : Instance :=
  {| defaults := defaults inst;
     request_interceptors := request_interceptors inst ++ [h];
     response_interceptors := response_interceptors inst |}.

Definition useResponse (h : Interceptor Response) (inst : Instance) : Instance :=
  {| defaults := defaults inst;
     request_interceptors := request_interceptors inst;
     response_interceptors := response_interceptors inst ++ [h] |}.

(** *** What goes on the wire *)

(** [JSON.stringify], as the document its text denotes: a property
    whose value is undefined is left out, an undefined array element is
    written as null, and undefined itself has no text at all. *)
Fixpoint toJson (v : Value) : option Value :=
  match v with
  | Undefined => None
  | Null | Boolean _ | Number _ | Str _ => Some v
  | Arr items =>
      Some (Arr (map (fun x => match toJson x with Some j => j | None => Null end) items))
  | Obj props =>
      Some (Obj ((fix written (ps : list (string * Value)) : list (string * Value) :=
                    match ps with
                    | [] => []
                    | (k, x) :: rest =>
                        match toJson x with
                        | Some j => (k, j) :: written rest
                        | None => written rest
                        end
                    end) props))
  end.

(** The body of a request. *)
Inductive Payload : Type :=
| NoPayload
| Json (document : Value)
| Text (s : string).

(** The default [transformRequest] under Content-Type: application/json:
    no data, no body; an object, an array, a number, a boolean or null
    is sent as its JSON text.  (A string given as data is sent as it is
    when it is JSON text already and as a JSON string otherwise; the
    methods of the client pass objects.) *)
Definition transformRequest (data : Value) : Payload :=
  match data with
  | Str s => Text s
  | _ => match toJson data with
         | Some document => Json document
         | None => NoPayload
         end
  end.

(** Header names are compared without regard to letter case. *)
Definition sameHeader (name : string) (h : string * string) : bool :=
  (toUpperCase (fst h) =? toUpperCase name)%string.

Definition header (name : string) (hs : list (string * string)) : option string :=
  option_map snd (find (sameHeader name) hs).

(** The headers the adapter sets on the request: those of the
    configuration, without Content-Type when there is no body. *)
Definition wireHeaders (cfg : RequestConfig) : list (string * string) :=
  match transformRequest (data cfg) with
  | NoPayload => List.filter (fun h => negb (sameHeader "Content-Type" h)) (headers cfg)
  | _ => headers cfg
  end.

End Axios.

Import Axios.

Notation "'let*' x ':=' m 'in' k" := (Axios.bind m (fun x => k))
  (at level 10, x name, m at level 100, k at level 200, only parsing).

(* ================================================================== *)
(** ** services/api.ts: [ApiService] *)
(* ================================================================== *)

Module ApiService.

(** Request interceptor: [(config) => { console.log(...); return config }]
    and [(error) => { console.error(...); return Promise.reject(error) }]. *)
Definition request_onFulfilled (config : RequestConfig) : Eff RequestConfig :=
  let* _ := log (console_log ("API Request: "
                   +:+ interpolate (option_map toUpperCase (method config))
                   +:+ " " +:+ interpolate (url config))) in
  ret config.

Definition request_onRejected (error : Error) : Eff RequestConfig :=
  let* _ := log (console_error "API Request Error:" (ArgError error)) in
  throw error.

(** Response interceptor. *)
Definition response_onFulfilled (response : Response) : Eff Response :=
  let* _ := log (console_log ("API Response: " +:+ toString (status response)
                   +:+ " " +:+ interpolate (url (r_config response)))) in
  ret response.

Definition response_onRejected (error : Error) : Eff Response :=
  let* _ := log (console_error "API Response Error:"
                   (ArgValue (Js.or (response_data error) (Str (message error))))) in
  throw error.

Record t : Type := { client : Axios.Instance }.

(** [import.meta.env.VITE_API_URL || 'http://localhost:5000'] *)
Definition apiUrl (VITE_API_URL : option string) : string :=
  match VITE_API_URL with
  | Some u => if nonEmpty u then u else "http://localhost:5000"
  | None => "http://localhost:5000"
  end.

Definition constructor (VITE_API_URL : option string) : t :=
  let created :=
    Axios.create {| baseURL := Some (apiUrl VITE_API_URL);
                    timeout := Some 30000%Z;
                    headers := [("Content-Type", "application/json")];
                    method := None; url := None;
                    data := Undefined; params := Undefined |} in
  {| client :=
       useResponse {| onFulfilled := response_onFulfilled; onRejected := response_onRejected |}
         (useRequest {| onFulfilled := request_onFulfilled; onRejected := request_onRejected |}
            created) |}.

(** The object literal [{ method, url, data, params }] handed to
    [this.client.request]. *)
Definition requestConfig (method url : string) (data params : Value) : RequestConfig :=
  {| baseURL := None; timeout := None; headers := [];
     method := Some method; url := Some url; data := data; params := params |}.

(** The [catch] block of [request]. *)
Definition request_catch (error : Error) : Eff Value :=
  if truthy (response_data error) then ret (response_data error) else throw error.

(** The generic request method. *)
Definition request (this : t) (net : Network)
    (method url : string) (data params : Value) : Eff Value :=
  try_catch
    (let* response := Axios.request (client this) net (requestConfig method url data params) in
     ret (r_data response))
    request_catch.

(** The public methods, each with its arguments; an optional argument
    that is omitted is [None]. *)
Inductive Method : Type :=
| getHealth
| getApiDocs
| executeCommand (request : Value)
| interpretCommand (command : string)
| getCommandHistory
| getCommandSuggestions (partialCommand : string)
| getSystemInfo
| getInstalledApplications
| openApplication (appName : string) (executableHints : option (list string))
| openFolder (folderName : string) (folderPaths : option (list string))
| captureScreen (region : option Value)
| analyzeScreen (query : string) (region : option Value)
| clickScreen (x y : Z) (duration : option Z)
| scrollScreen (direction : string) (amount : Z) (x y : option Z)
| typeText (text : string) (interval : option Z)
| pressKey (key : string)
| executeSystemCommand (command : string)
| getSystemStatus
| testSystemFunctionality
| searchFiles (query : string) (fileType : option string)
              (maxResults : option Z) (searchLocations : option (list string))
| getFileInfo (filePath : string)
| openFile (filePath : string)
| readFile (filePath : string) (encoding : option string) (maxSize : option Z)
| writeFile (filePath content : string) (encoding : option string) (backup : option bool)
| listDirectory (dirPath : string) (showHidden : option bool)
| createDirectory (dirPath : string)
| copyFile (filePath destination : string)
| moveFile (filePath destination : string)
| deleteFile (filePath : string) (permanent : option bool)
| getDiskUsage (path : option string)
| findDuplicates (directory : string) (minSize : option Z)
| cleanupTempFiles (tempDirs : option (list string))
| getFileServiceStatus
| searchWeb (query : string)
| openWebsite (site : string)
| browseUrl (url : string)
| searchYouTube (query : string) (maxResults : option Z)
| searchYouTubeDirect (query : string)
| playYouTubeVideo (query : string)
| playMusic (songName : string) (artist : option string)
| searchTutorials (topic : string) (maxResults : option Z)
| getVideoInfo (url : string)
| createPlaylist (videos : list Value) (name : string)
| getTrendingVideos (region category : option string)
| getMediaServiceStatus
| constructUrl (websiteInput : string).

(** The four arguments a method passes to [this.request]. *)
Record Call : Type := {
  c_method : string;
  c_url : string;
  c_data : Value;
  c_params : Value
}.

Definition GET (url : string) (params : Value) : Call :=
  {| c_method := "GET"; c_url := url; c_data := Undefined; c_params := params |}.
Definition POST (url : string) (data : Value) : Call :=
  {| c_method := "POST"; c_url := url; c_data := data; c_params := Undefined |}.
Definition DELETE (url : string) (params : Value) : Call :=
  {| c_method := "DELETE"; c_url := url; c_data := Undefined; c_params := params |}.

(** [`/api/v1/files/${encodeURIComponent(p)}/suffix`] *)
Definition filesUrl (p suffix : string) : string :=
  "/api/v1/files/" +:+ encodeURIComponent p +:+ suffix.

(** The body of each public method: which [this.request(...)] it makes. *)
Definition call (m : Method) : Call :=
  match m with
  (* Health and status endpoints *)
  | getHealth => GET "/health" Undefined
  | getApiDocs => GET "/api/docs" Undefined
  (* Command endpoints *)
  | executeCommand request => POST "/api/v1/commands/execute" request
  | interpretCommand command =>
      POST "/api/v1/commands/interpret" (Obj [("command", Str command)])
  | getCommandHistory => GET "/api/v1/commands/history" Undefined
  | getCommandSuggestions partialCommand =>
      POST "/api/v1/commands/suggest" (Obj [("partial_command", Str partialCommand)])
  (* System endpoints *)
  | getSystemInfo => GET "/api/v1/system/info" Undefined
  | getInstalledApplications => GET "/api/v1/system/applications" Undefined
  | openApplication appName executableHints =>
      POST ("/api/v1/system/applications/" +:+ encodeURIComponent appName +:+ "/open")
           (Obj [("executable_hints", Js.or (opt strings executableHints) (Arr []))])
  | openFolder folderName folderPaths =>
      POST "/api/v1/system/folders/open"
           (Obj [("folder_name", Str folderName);
                 ("folder_paths", Js.or (opt strings folderPaths) (Arr []))])
  | captureScreen region => GET "/api/v1/system/screen/capture" (opt id region)
  | analyzeScreen query region =>
      POST "/api/v1/system/screen/analyze"
           (Obj [("query", Str query); ("region", opt id region)])
  | clickScreen x y duration =>
      POST "/api/v1/system/screen/click"
           (Obj [("x", Number x); ("y", Number y); ("duration", opt Number duration)])
  | scrollScreen direction amount x y =>
      POST "/api/v1/system/screen/scroll"
           (Obj [("direction", Str direction); ("amount", Number amount);
                 ("x", opt Number x); ("y", opt Number y)])
  | typeText text interval =>
      POST "/api/v1/system/keyboard/type"
           (Obj [("text", Str text); ("interval", opt Number interval)])
  | pressKey key => POST "/api/v1/system/keyboard/press" (Obj [("key", Str key)])
  | executeSystemCommand command =>
      POST "/api/v1/system/execute" (Obj [("command", Str command)])
  | getSystemStatus => GET "/api/v1/system/status" Undefined
  | testSystemFunctionality => GET "/api/v1/system/test" Undefined
  (* File endpoints *)
  | searchFiles query fileType maxResults searchLocations =>
      POST "/api/v1/files/search"
           (Obj [("query", Str query);
                 ("file_type", opt Str fileType);
                 ("max_results", opt Number maxResults);
                 ("search_locations", opt strings searchLocations)])
  | getFileInfo filePath => GET (filesUrl filePath "/info") Undefined
  | openFile filePath => POST (filesUrl filePath "/open") Undefined
  | readFile filePath encoding maxSize =>
      GET (filesUrl filePath "/read")
          (Obj [("encoding", opt Str encoding); ("max_size", opt Number maxSize)])
  | writeFile filePath content encoding backup =>
      POST (filesUrl filePath "/write")
           (Obj [("content", Str content); ("encoding", opt Str encoding);
                 ("backup", opt Boolean backup)])
  | listDirectory dirPath showHidden =>
      GET (filesUrl dirPath "/list") (Obj [("show_hidden", opt Boolean showHidden)])
  | createDirectory dirPath => POST (filesUrl dirPath "/create") Undefined
  | copyFile filePath destination =>
      POST (filesUrl filePath "/copy") (Obj [("destination", Str destination)])
  | moveFile filePath destination =>
      POST (filesUrl filePath "/move") (Obj [("destination", Str destination)])
  | deleteFile filePath permanent =>
      DELETE (filesUrl filePath "/delete") (Obj [("permanent", opt Boolean permanent)])
  | getDiskUsage path => GET "/api/v1/files/disk-usage" (Obj [("path", opt Str path)])
  | findDuplicates directory minSize =>
      POST "/api/v1/files/duplicates"
           (Obj [("directory", Str directory); ("min_size", opt Number minSize)])
  | cleanupTempFiles tempDirs =>
      POST "/api/v1/files/cleanup" (Obj [("temp_dirs", opt strings tempDirs)])
  | getFileServiceStatus => GET "/api/v1/files/status" Undefined
  (* Media endpoints *)
  | searchWeb query => POST "/api/v1/media/web/search" (Obj [("query", Str query)])
  | openWebsite site => POST "/api/v1/media/website/open" (Obj [("site", Str site)])
  | browseUrl url => POST "/api/v1/media/browse" (Obj [("url", Str url)])
  | searchYouTube query maxResults =>
      POST "/api/v1/media/youtube/search"
           (Obj [("query", Str query); ("max_results", opt Number maxResults)])
  | searchYouTubeDirect query =>
      POST "/api/v1/media/youtube/search-direct" (Obj [("query", Str query)])
  | playYouTubeVideo query =>
      POST "/api/v1/media/youtube/play" (Obj [("query", Str query)])
  | playMusic songName artist =>
      POST "/api/v1/media/youtube/music"
           (Obj [("song_name", Str songName); ("artist", opt Str artist)])
  | searchTutorials topic maxResults =>
      POST "/api/v1/media/youtube/tutorials"
           (Obj [("topic", Str topic); ("max_results", opt Number maxResults)])
  | getVideoInfo url => POST "/api/v1/media/youtube/video-info" (Obj [("url", Str url)])
  | createPlaylist videos name =>
      POST "/api/v1/media/youtube/playlist"
           (Obj [("videos", Arr videos); ("name", Str name)])
  | getTrendingVideos region category =>
      GET "/api/v1/media/youtube/trending"
          (Obj [("region", opt Str region); ("category", opt Str category)])
  | getMediaServiceStatus => GET "/api/v1/media/status" Undefined
  | constructUrl websiteInput =>
      POST "/api/v1/media/url/construct" (Obj [("website_input", Str websiteInput)])
  end.

(** Calling a public method. *)
Definition invoke (this : t) (net : Network) (m : Method) : Eff Value :=
  let c := call m in
  request this net (c_method c) (c_url c) (c_data c) (c_params c).

(** The envelope [{ success, data?, error? }] of [ApiResponse]: an
    object with a boolean [success]; [error], when there, is an object. *)
Definition isEnvelope (v : Value) : bool :=
  match v with
  | Obj ps =>
      match lookup_prop "success" ps with
      | Boolean _ =>
          match lookup_prop "error" ps with
          | Undefined | Obj _ => true
          | _ => false
          end
      | _ => false
      end
  | _ => false
  end.

End ApiService.

(** [export const apiService = new ApiService()], for the build-time
    value of the environment variable. *)
Definition apiService (VITE_API_URL : option string) : ApiService.t :=
  ApiService.constructor VITE_API_URL.

(* ================================================================== *)
(** ** pages/Chat.tsx *)
(* ================================================================== *)

Module Chat.

Inductive MessageType : Type := user | assistant.

(** [ChatMessage]; [content] is what the code stores there at run time,
    and an absent [action] or [data] is [Undefined]. *)
Record ChatMessage : Type := {
  msg_id : string;
  msg_type : MessageType;
  content : Value;
  timestamp : Z;
  action : Value;
  msg_data : Value
}.

(** The component state, with what the page has asked of the API client
    so far and the number of [handleSendMessage] calls suspended at
    their [await]. *)
Record Page : Type := {
  messages : list ChatMessage;
  input : string;
  isLoading : bool;
  isListening : bool;
  calls : list ApiService.Method;
  awaiting : nat
}.

Definition greeting : string :=
  "Hello! I'm JARVIS, your AI assistant. How can I help you today?".

Definition initial (now : Z) : Page :=
  {| messages := [ {| msg_id := "1"; msg_type := assistant; content := Str greeting;
                      timestamp := now; action := Undefined; msg_data := Undefined |} ];
     input := ""; isLoading := false; isListening := false;
     calls := []; awaiting := 0 |}.

(** [!input.trim() || isLoading] *)
Definition blocked (p : Page) : bool :=
  negb (nonEmpty (trim (input p))) || isLoading p.

Definition userMessage (now : Z) (p : Page) : ChatMessage :=
  {| msg_id := toString now; msg_type := user; content := Str (trim (input p));
     timestamp := now; action := Undefined; msg_data := Undefined |}.

(** [handleSendMessage], up to the [await]. *)
Definition handleSendMessage_start (now : Z) (p : Page) : Page :=
  if blocked p then p
  else
    let m := userMessage now p in
    {| messages := messages p ++ [m];
       input := "";
       isLoading := true;
       isListening := isListening p;
       calls := calls p ++ [ApiService.executeCommand
                              (Obj [("command", content m); ("user_id", Str "user")])];
       awaiting := S (awaiting p) |}.

Definition errorMessage (now : Z) (text : Value) : ChatMessage :=
  {| msg_id := toString (now + 1); msg_type := assistant; content := text;
     timestamp := now; action := Undefined; msg_data := Undefined |}.

(** The [try] block after the [await]: the message to append, or the
    exception raised. *)
Definition answer (now : Z) (response : Value) : Settled ChatMessage :=
  Js.bind (get response "success") (fun success =>
  Js.bind (get response "data") (fun data =>
    if truthy (Js.and success data) then
      Js.bind (get data "response") (fun text =>
      Js.bind (get data "action") (fun act =>
      Js.bind (get data "data") (fun d =>
        Fulfilled {| msg_id := toString (now + 1); msg_type := assistant;
                     content := Js.or text (Str "Command executed successfully");
                     timestamp := now; action := act; msg_data := d |})))
    else
      Js.bind (get response "error") (fun error =>
        Fulfilled (errorMessage now
          (Js.or (get_opt error "message") (Str "Sorry, something went wrong.")))))).

(** [handleSendMessage], from the [await] on, once the promise of
    [apiService.executeCommand] has settled: [try], [catch], [finally]. *)
Definition handleSendMessage_resume (now : Z) (r : Settled Value) (p : Page) : Page :=
  let m :=
    match Js.bind r (answer now) with
    | Fulfilled m => m
    | Rejected _ =>
        errorMessage now (Str "Sorry, I encountered an error while processing your request.")
    end in
  {| messages := messages p ++ [m];
     input := input p;
     isLoading := false;
     isListening := isListening p;
     calls := calls p;
     awaiting := pred (awaiting p) |}.

Definition setInput (s : string) (p : Page) : Page :=
  {| messages := messages p; input := s; isLoading := isLoading p;
     isListening := isListening p; calls := calls p; awaiting := awaiting p |}.

Definition toggleVoiceListening (p : Page) : Page :=
  {| messages := messages p; input := input p; isLoading := isLoading p;
     isListening := negb (isListening p); calls := calls p; awaiting := awaiting p |}.

(** What can happen to the page: the user edits the input (typing or a
    suggestion button), sends (button or Enter), toggles the
    microphone, or the pending command settles. *)
Inductive Event : Type :=
| Edit (s : string)
| Send (now : Z)
| Settle (now : Z) (r : Settled Value)
| ToggleVoice.

Definition step (p : Page) (e : Event) : Page :=
  match e with
  | Edit s => setInput s p
  | Send now => handleSendMessage_start now p
  | Settle now r =>
      match awaiting p with
      | O => p
      | S _ => handleSendMessage_resume now r p
      end
  | ToggleVoice => toggleVoiceListening p
  end.

Definition run (es : list Event) (p : Page) : Page := fold_left step es p.

Definition isSettle (e : Event) : bool :=
  match e with
  | Settle _ _ => true
  | _ => false
  end.

(** [handleSendMessage] run to completion: called at [now], its request
    settling with [r] at [now']. *)
Definition handleSendMessage (now now' : Z) (r : Settled Value) (p : Page) : Page :=
  if blocked p then p
  else handleSendMessage_resume now' r (handleSendMessage_start now p).

End Chat.

(* ================================================================== *)
(** ** window.setInterval / clearInterval *)
(* ================================================================== *)

Module Timers.

Section WithCallback.
Context {Callback : Type}.

(** A repeating timer; time is counted in whole milliseconds. *)
Record Timer : Type := {
  timer_id : nat;
  delay : N;
  due : N;
  callback : Callback
}.

Record Clock : Type := {
  now : N;
  timers : list Timer;
  next_id : nat
}.

Definition start (t0 : N) : Clock := {| now := t0; timers := []; next_id := 1 |}.

Definition setInterval (cb : Callback) (ms : N) (c : Clock) : nat * Clock :=
  (next_id c,
   {| now := now c;
      timers := timers c ++ [ {| timer_id := next_id c; delay := ms;
                                 due := now c + N.max 1 ms; callback := cb |} ];
      next_id := S (next_id c) |}).

Definition clearInterval (id : nat) (c : Clock) : Clock :=
  {| now := now c;
     timers := List.filter (fun t => negb (timer_id t =? id)) (timers c);
     next_id := next_id c |}.

Definition rearm (t : N) (tm : Timer) : Timer :=
  if (due tm =? t)%N
  then {| timer_id := timer_id tm; delay := delay tm;
          due := t + N.max 1 (delay tm); callback := callback tm |}
  else tm.

(** One millisecond passes: the callbacks that come due, and the clock
    with those timers armed again. *)
Definition tick (c : Clock) : list Callback * Clock :=
  let t := N.succ (now c) in
  (map callback (List.filter (fun tm => (due tm =? t)%N) (timers c)),
   {| now := t; timers := map (rearm t) (timers c); next_id := next_id c |}).

End WithCallback.
Arguments Timer : clear implicits.
Arguments Clock : clear implicits.

End Timers.

(* ================================================================== *)
(** ** pages/Dashboard.tsx *)
(* ================================================================== *)

Module Dashboard.

(** The state of the component.  Only the state and its setters are
    modelled, not what is drawn from it: the markup returned once
    [loading] is false names the icon [Mic], which the file does not
    import. *)
Record State : Type := {
  appStatus : Value;
  diagnostics : Value;
  recentActivity : list Value;
  loading : bool
}.

(** [useState(null)], [useState(null)], [useState([])], [useState(true)] *)
Definition initial : State :=
  {| appStatus := Null; diagnostics := Null; recentActivity := []; loading := true |}.

Definition online : Value := Str "online".

(** The mock diagnostics literal. *)
Definition mockDiagnostics : Value :=
  Obj [("cpu", Obj [("usage", Number 45); ("cores", Number 8)]);
       ("memory", Obj [("total", Number 16384); ("used", Number 8192);
                       ("available", Number 8192); ("percentage", Number 50)]);
       ("disk", Arr []);
       ("network", Obj [("connected", Boolean true)]);
       ("services", Obj [("ai", online); ("voice", online); ("vision", online);
                         ("system", online); ("files", online); ("media", online)])].

Definition setAppStatus (v : Value) (st : State) : State :=
  {| appStatus := v; diagnostics := diagnostics st;
     recentActivity := recentActivity st; loading := loading st |}.
Definition setDiagnostics (v : Value) (st : State) : State :=
  {| appStatus := appStatus st; diagnostics := v;
     recentActivity := recentActivity st; loading := loading st |}.
Definition setLoading (b : bool) (st : State) : State :=
  {| appStatus := appStatus st; diagnostics := diagnostics st;
     recentActivity := recentActivity st; loading := b |}.

(** The API calls [loadDashboardData] makes before its [await]. *)
Definition loadDashboardData_calls : list ApiService.Method := [ApiService.getSystemStatus].

(** The [try] block of [loadDashboardData] after the [await], given
    what the promise of [getSystemStatus] settled to. *)
Definition loadDashboardData_try (r : Settled Value) (st : State) : Settled State :=
  Js.bind r (fun statusResponse =>
  Js.bind (get statusResponse "success") (fun success =>
  Js.bind (get statusResponse "data") (fun d =>
    let st1 := if truthy success then setAppStatus d st else st in
    Fulfilled (setLoading false (setDiagnostics mockDiagnostics st1))))).

(** [loadDashboardData] from the [await] on; no state is set before an
    exception can be raised, so the [catch] block starts from [st]. *)
Definition loadDashboardData_resume (r : Settled Value) (st : State)
  : State * list ConsoleEntry :=
  match loadDashboardData_try r st with
  | Fulfilled st' => (st', [])
  | Rejected error =>
      (setLoading false st,
       [console_error "Failed to load dashboard data:" (ArgError error)])
  end.

(** The state after a sequence of loads has completed, listed in the
    order in which they completed. *)
Definition loads (rs : list (Settled Value)) (st : State) : State :=
  fold_left (fun s r => fst (loadDashboardData_resume r s)) rs st.

(** *** The effect: load on mount, poll, clear on unmount *)

Inductive Callback : Type := loadDashboardData.

(** The mounted component: the browser's timers, the interval the
    cleanup closure holds, and the times at which [loadDashboardData] was
    invoked, oldest first. *)
Record Mounted : Type := {
  clock : Timers.Clock Callback;
  interval : option nat;
  invoked : list N
}.

Definition opened (t0 : N) : Mounted :=
  {| clock := Timers.start t0; interval := None; invoked := [] |}.

(** The [useEffect] body, run on mount. *)
Definition mount (m : Mounted) : Mounted :=
  let '(id, c) := Timers.setInterval loadDashboardData 5000 (clock m) in
  {| clock := c; interval := Some id;
     invoked := invoked m ++ [Timers.now (clock m)] |}.

(** The cleanup returned by the effect, run on unmount. *)
Definition unmount (m : Mounted) : Mounted :=
  match interval m with
  | Some id => {| clock := Timers.clearInterval id (clock m); interval := None;
                  invoked := invoked m |}
  | None => m
  end.

(** One millisecond passes; each callback that comes due is invoked. *)
Definition tick (m : Mounted) : Mounted :=
  let '(cbs, c) := Timers.tick (clock m) in
  {| clock := c; interval := interval m;
     invoked := invoked m ++ map (fun _ => Timers.now c) cbs |}.

Definition advance (ms : N) (m : Mounted) : Mounted := N.iter ms tick m.

End Dashboard.

(* ================================================================== *)
(** ** pages/SystemInfo.tsx *)
(* ================================================================== *)

Module SystemInfo.

(** The state of the component.  As for the Dashboard, only the state
    and its setters are modelled: the markup returned once [loading] is
    false names the icon [FolderOpen], which the file does not import. *)
Record State : Type := {
  systemInfo : Value;
  appStatus : Value;
  loading : bool;
  refreshing : bool
}.

Definition initial : State :=
  {| systemInfo := Null; appStatus := Null; loading := true; refreshing := false |}.

Definition setSystemInfo (v : Value) (st : State) : State :=
  {| systemInfo := v; appStatus := appStatus st;
     loading := loading st; refreshing := refreshing st |}.
Definition setAppStatus (v : Value) (st : State) : State :=
  {| systemInfo := systemInfo st; appStatus := v;
     loading := loading st; refreshing := refreshing st |}.
Definition setLoading (b : bool) (st : State) : State :=
  {| systemInfo := systemInfo st; appStatus := appStatus st;
     loading := b; refreshing := refreshing st |}.
Definition setRefreshing (b : bool) (st : State) : State :=
  {| systemInfo := systemInfo st; appStatus := appStatus st;
     loading := loading st; refreshing := b |}.

(** [Promise.all] of two promises: fulfilled with both values when both
    fulfil, rejected as soon as one rejects.  When both reject, the
    promise carries the rejection that happened first in time; the model
    takes the first in array order.  The choice shows only in the error
    written to the console, never in the state. *)
Definition all2 (r1 r2 : Settled Value) : Settled (Value * Value) :=
  Js.bind r1 (fun v1 => Js.bind r2 (fun v2 => Fulfilled (v1, v2))).

(** [loadSystemInfo], up to the [await]. *)
Definition loadSystemInfo_start (st : State) : State * list ApiService.Method :=
  (setRefreshing true st, [ApiService.getSystemInfo; ApiService.getSystemStatus]).

(** The [try] block after the [await]: the state reached, and whether
    the block completed or raised. *)
Definition loadSystemInfo_try (r1 r2 : Settled Value) (st : State) : State * Settled unit :=
  match all2 r1 r2 with
  | Rejected e => (st, Rejected e)
  | Fulfilled (systemResponse, statusResponse) =>
      match Js.bind (get systemResponse "success")
                    (fun s => Js.bind (get systemResponse "data") (fun d => Fulfilled (s, d))) with
      | Rejected e => (st, Rejected e)
      | Fulfilled (s1, d1) =>
          let st1 := if truthy s1 then setSystemInfo d1 st else st in
          match Js.bind (get statusResponse "success")
                        (fun s => Js.bind (get statusResponse "data") (fun d => Fulfilled (s, d))) with
          | Rejected e => (st1, Rejected e)
          | Fulfilled (s2, d2) =>
              (if truthy s2 then setAppStatus d2 st1 else st1, Fulfilled tt)
          end
      end
  end.

(** [loadSystemInfo] from the [await] on: [try], [catch], [finally]. *)
Definition loadSystemInfo_resume (r1 r2 : Settled Value) (st : State)
  : State * list ConsoleEntry :=
  let '(st1, outcome) := loadSystemInfo_try r1 r2 st in
  (setRefreshing false (setLoading false st1),
   match outcome with
   | Fulfilled _ => []
   | Rejected error => [console_error "Failed to load system info:" (ArgError error)]
   end).

(** [loadSystemInfo] run to completion. *)
Definition loadSystemInfo (r : Settled Value * Settled Value) (st : State) : State :=
  fst (loadSystemInfo_resume (fst r) (snd r) (fst (loadSystemInfo_start st))).

(** The state after a sequence of loads has completed, listed in the
    order in which they completed. *)
Definition loads (rs : list (Settled Value * Settled Value)) (st : State) : State :=
  fold_left (fun s r => loadSystemInfo r s) rs st.

End SystemInfo.

(* ================================================================== *)
(** ** App.tsx and components/layout/Layout.tsx *)
(* ================================================================== *)

Module App.

(** The page components a route can render. *)
Inductive Element : Type :=
| Dashboard | Chat | SystemInfo | FileManager | VoiceControl | Settings | NotFound.

(** The children of [<Routes>], in the order written. *)
Definition routes : list (string * Element) :=
  [ ("/", Dashboard);
    ("/chat", Chat);
    ("/system", SystemInfo);
    ("/files", FileManager);
    ("/voice", VoiceControl);
    ("/settings", Settings);
    ("*", NotFound) ].

(** *** Route matching, as react-router (version 6) does it

    A route path without parameters is compiled to a regular expression
    that is matched without regard to letter case: for a static path,
    the path without its trailing slashes and with one leading slash,
    followed by any number of slashes; for the splat, a slash followed by
    anything but a line break. *)

Fixpoint stripLeadingSlashes (s : string) : string :=
  match s with
  | String c rest => if (c =? "/")%char then stripLeadingSlashes rest else s
  | EmptyString => EmptyString
  end.

Fixpoint stripTrailingSlashes (s : string) : string :=
  match s with
  | EmptyString => EmptyString
  | String c rest =>
      match stripTrailingSlashes rest with
      | EmptyString => if (c =? "/")%char then EmptyString else String c EmptyString
      | rest' => String c rest'
      end
  end.

(** The path without trailing slashes and with exactly one leading slash. *)
Definition normalize (path : string) : string :=
  String "/" (stripLeadingSlashes (stripTrailingSlashes path)).

Fixpoint allSlashes (s : string) : bool :=
  match s with
  | EmptyString => true
  | String c rest => (c =? "/")%char && allSlashes rest
  end.

(** Two code units that differ at most in the case of an ASCII letter;
    this is what ignoring case comes to for the paths of this table,
    which are ASCII. *)
Definition sameLetter (a b : ascii) : bool := (upper a =? upper b)%char.

(** The pattern, ignoring case, then any number of slashes, then the end. *)
Fixpoint matchStatic (pattern pathname : string) : bool :=
  match pattern with
  | EmptyString => allSlashes pathname
  | String a pattern' =>
      match pathname with
      | String b pathname' => sameLetter a b && matchStatic pattern' pathname'
      | EmptyString => false
      end
  end.

Definition isLineTerminator (c : ascii) : bool :=
  let n := nat_of_ascii c in (n =? 10) || (n =? 13).

(** A slash, then any characters other than line breaks, then the end. *)
Definition matchSplat (pathname : string) : bool :=
  match pathname with
  | String c rest =>
      (c =? "/")%char && forallb (fun x => negb (isLineTerminator x)) (list_ascii_of_string rest)
  | EmptyString => false
  end.

Definition matches (path pathname : string) : bool :=
  if (path =? "*")%string then matchSplat pathname
  else matchStatic (normalize path) pathname.

(** The element [<Routes>] renders for a location: that of the first
    route that matches ([location.pathname || '/']).  The router ranks
    static routes above the splat, which is the order written here.
    Releases from 6.4 on undo percent-escapes in the pathname before
    they match; pathnames are taken without percent-escapes. *)
Definition render (pathname : string) : option Element :=
  let pathname := if nonEmpty pathname then pathname else "/" in
  option_map snd (find (fun r => matches (fst r) pathname) routes).

(** The routes of the feature pages: all but the splat. *)
Definition featureRoutes : list (string * Element) :=
  List.filter (fun r => negb (fst r =? "*")%string) routes.

End App.

Module Layout.

Record NavigationItem : Type := {
  nav_id : string;
  label : string;
  icon : string;
  path : string
}.

Definition navigation : list NavigationItem :=
  [ {| nav_id := "dashboard"; label := "Dashboard"; icon := "Activity"; path := "/" |};
    {| nav_id := "chat"; label := "AI Assistant"; icon := "Brain"; path := "/chat" |};
    {| nav_id := "system"; label := "System"; icon := "Monitor"; path := "/system" |};
    {| nav_id := "files"; label := "Files"; icon := "FolderOpen"; path := "/files" |};
    {| nav_id := "voice"; label := "Voice"; icon := "Mic"; path := "/voice" |};
    {| nav_id := "settings"; label := "Settings"; icon := "Settings"; path := "/settings" |} ].

(** [location.pathname === item.path] *)
Definition isActive (pathname : string) (item : NavigationItem) : bool :=
  (pathname =? path item)%string.

(** The heading of the top bar. *)
Definition title (pathname : string) : string :=
  match find (isActive pathname) navigation with
  | Some item => if nonEmpty (label item) then label item else "JARVIS AI"
  | None => "JARVIS AI"
  end.

End Layout.

(* ================================================================== *)
(** ** Chat.tsx on top of services/api.ts *)
(* ================================================================== *)

Module ChatSession.

(** [React.KeyboardEvent], as far as [handleKeyPress] reads it. *)
Record KeyboardEvent : Type := {
  key : string;
  shiftKey : bool
}.

(** [handleKeyPress]: whether [e.preventDefault()] was called, and the
    page after the handler. *)
Definition handleKeyPress (e : KeyboardEvent) (now : Z) (p : Chat.Page) : bool * Chat.Page :=
  if (key e =? "Enter")%string && negb (shiftKey e)
  then (true, Chat.handleSendMessage_start now p)
  else (false, p).

(** The argument of [apiService.executeCommand] in [handleSendMessage]. *)
Definition commandRequest (now : Z) (p : Chat.Page) : Value :=
  Obj [("command", Chat.content (Chat.userMessage now p)); ("user_id", Str "user")].

(** [handleSendMessage] with the API client underneath: the call of
    [apiService.executeCommand] goes out on the network, and what its
    promise settles to resumes the handler. *)
Definition handleSendMessage (vite : option string) (net : Network) (now now' : Z)
    (pw : Chat.Page * World) : Chat.Page * World :=
  let (p, w) := pw in
  if Chat.blocked p then (p, w)
  else
    let p1 := Chat.handleSendMessage_start now p in
    let (w', r) := ApiService.invoke (apiService vite) net
                     (ApiService.executeCommand (commandRequest now p)) w in
    (Chat.handleSendMessage_resume now' r p1, w').

End ChatSession.

(* ================================================================== *)
(** ** SystemInfo.tsx: the page around [loadSystemInfo] *)
(* ================================================================== *)

Module SystemInfoPage.

(** The component state, what the page has asked of the API client so
    far, and the number of [loadSystemInfo] calls suspended at their
    [await]. *)
Record Page : Type := {
  state : SystemInfo.State;
  calls : list ApiService.Method;
  awaiting : nat
}.

(** A call of [loadSystemInfo], up to its [await]. *)
Definition load (p : Page) : Page :=
  let (st, cs) := SystemInfo.loadSystemInfo_start (state p) in
  {| state := st; calls := calls p ++ cs; awaiting := S (awaiting p) |}.

(** [useEffect(() => { loadSystemInfo() }, [])] on the fresh component. *)
Definition mounted : Page :=
  load {| state := SystemInfo.initial; calls := []; awaiting := 0 |}.

(** The Refresh button is part of the page proper, which replaces the
    spinner once [loading] is false, and it is [disabled={refreshing}]. *)
Definition refreshEnabled (p : Page) : bool :=
  negb (SystemInfo.loading (state p)) && negb (SystemInfo.refreshing (state p)).

Inductive Event : Type :=
| Refresh
| Settle (r1 r2 : Settled Value).

Definition step (p : Page) (e : Event) : Page :=
  match e with
  | Refresh => if refreshEnabled p then load p else p
  | Settle r1 r2 =>
      match awaiting p with
      | O => p
      | S n =>
          {| state := fst (SystemInfo.loadSystemInfo_resume r1 r2 (state p));
             calls := calls p;
             awaiting := n |}
      end
  end.

Definition run (es : list Event) (p : Page) : Page := fold_left step es p.

(** [key.replace(/_/g, ' ')], the label of a capability tile. *)
Fixpoint capabilityLabel (key : string) : string :=
  match key with
  | EmptyString => EmptyString
  | String c rest =>
      String (if (c =? "_")%char then " "%char else c) (capabilityLabel rest)
  end.

End SystemInfoPage.

(* ================================================================== *)
(** ** Dashboard.tsx: the page opened and closed repeatedly *)
(* ================================================================== *)

Module DashboardVisits.

(** One visit: the component mounts, stays mounted for [fst v]
    milliseconds, unmounts, and [snd v] milliseconds pass before the
    next visit. *)
Definition visit (m : Dashboard.Mounted) (v : N * N) : Dashboard.Mounted :=
  Dashboard.advance (snd v) (Dashboard.unmount (Dashboard.advance (fst v) (Dashboard.mount m))).

Definition visits (vs : list (N * N)) (m : Dashboard.Mounted) : Dashboard.Mounted :=
  fold_left visit vs m.

End DashboardVisits.

(* ================================================================== *)
(** ** The browser: paths and URL resolution *)
(* ================================================================== *)

Definition slashFree (s : string) : bool :=
  forallb (fun c => negb (c =? "/")%char) (list_ascii_of_string s).

(** The segments of a path: the pieces between its slashes. *)
Fixpoint segments (s : string) : list string :=
  match s with
  | EmptyString => [EmptyString]
  | String c rest =>
      if (c =? "/")%char then EmptyString :: segments rest
      else match segments rest with
           | seg :: segs => String c seg :: segs
           | [] => [String c EmptyString]
           end
  end.

(** Before a request is sent its URL is parsed by the browser, and
    parsing resolves the dot segments of the path: a segment [.] is
    dropped, a segment [..] is dropped together with the segment before
    it (percent-escaped dots, in either case of the hexadecimal digit,
    count as dots).  This is the path state of the URL standard, for a
    path that is made of segments and slashes only (no question mark,
    hash or backslash), as the paths of the client are.  Paths are
    relative to the base URL, which is taken to be an origin, possibly
    followed by a path. *)

Module Url.

Definition singleDots : list string := ["."; "%2e"; "%2E"].

Definition doubleDots : list string :=
  [".."; ".%2e"; ".%2E"; "%2e."; "%2E."; "%2e%2e"; "%2e%2E"; "%2E%2e"; "%2E%2E"].

Definition isSingleDot (seg : string) : bool := existsb (String.eqb seg) singleDots.
Definition isDoubleDot (seg : string) : bool := existsb (String.eqb seg) doubleDots.

(** The segments kept, latest first, while the segments of the input
    are read; a dot segment at the very end leaves an empty segment. *)
Fixpoint shorten (segs kept : list string) : list string :=
  match segs with
  | [] => rev kept
  | seg :: rest =>
      let atEnd := match rest with [] => true | _ => false end in
      if isDoubleDot seg then shorten rest (if atEnd then "" :: tl kept else tl kept)
      else if isSingleDot seg then shorten rest (if atEnd then "" :: kept else kept)
      else shorten rest (seg :: kept)
  end.

(** A path is written as a slash before each of its segments. *)
Fixpoint serialize (segs : list string) : string :=
  match segs with
  | [] => ""
  | seg :: rest => String "/" seg +:+ serialize rest
  end.

(** The path requested for a URL path that starts with a slash. *)
Definition resolve (path : string) : string :=
  match segments path with
  | "" :: segs => serialize (shorten segs [])
  | _ => path
  end.

End Url.

(* ================================================================== *)
(** ** Vocabulary of the specification *)
(* ================================================================== *)

(** What a method's request looks like once merged with the instance
    defaults: this is what request interceptors see and what is handed
    to the adapter. *)
Definition wireConfig (VITE_API_URL : option string) (m : ApiService.Method) : RequestConfig :=
  let c := ApiService.call m in
  {| baseURL := Some (ApiService.apiUrl VITE_API_URL);
     timeout := Some 30000%Z;
     headers := [("Accept", "application/json, text/plain, */*");
                 ("Content-Type", "application/json")];
     method := Some (ApiService.c_method c);
     url := Some (ApiService.c_url c);
     data := ApiService.c_data c;
     params := ApiService.c_params c |}.

(** What the promise of a method settles to, by what the network did. *)
Definition outcome (o : NetOutcome) : Settled Value :=
  match o with
  | HttpReply st body =>
      if validateStatus st || truthy body then Fulfilled body
      else Rejected (AxiosError ("Request failed with status code " +:+ toString st)
                                (Some {| err_status := st; err_data := body |}))
  | NoReply msg => Rejected (AxiosError msg None)
  end.

(** The versioned namespaces of the README: /api/v1/commands/...,
    /api/v1/system/..., /api/v1/files/..., /api/v1/media/... *)
Definition namespaces : list string := ["commands"; "system"; "files"; "media"].

Definition versioned (u : string) : bool :=
  existsb (fun ns => String.prefix ("/api/v1/" +:+ ns +:+ "/") u) namespaces.

(** A response that "carries a body": something other than nothing at
    all (an absent or empty payload). *)
Definition carriesBody (v : Value) : bool :=
  match v with
  | Undefined => false
  | Str s => nonEmpty s
  | _ => true
  end.

(** A page that has logged nothing and sent nothing yet, and a network
    that treats every request the same way. *)
Definition quiet : World := {| console := []; sent := [] |}.

Definition always (o : NetOutcome) : Network := fun _ _ => o.

(** The client without its interceptors. *)
Definition bare (inst : Axios.Instance) : Axios.Instance :=
  {| defaults := defaults inst; request_interceptors := []; response_interceptors := [] |}.







(** The input consists of white space only (or of nothing). *)
Definition blank (s : string) : Prop :=
  Forall (fun c => isWhiteSpace c = true) (list_ascii_of_string s).








(** The times t0, t0 + 5000, ..., t0 + 5000 (k - 1). *)
Fixpoint pollTimes (t0 : N) (k : nat) : list N :=
  match k with
  | O => []
  | S k' => pollTimes t0 k' ++ [(t0 + 5000 * N.of_nat k')%N]
  end.

(** *** Vocabulary for the further properties *)

(** The escape of one code unit in [encodeURIComponent]. *)
Definition escapeCodeUnit (c : ascii) : string :=
  let n := nat_of_ascii c in
  if isUnreserved c then String c EmptyString
  else if n <? 128 then percent n
  else percent (192 + n / 64) +:+ percent (128 + n mod 64).

Definition hexValue (c : ascii) : nat :=
  let n := nat_of_ascii c in
  if (48 <=? n) && (n <=? 57) then n - 48
  else if (65 <=? n) && (n <=? 70) then n - 55
  else 0.

(** Undoing the percent-escapes of [encodeURIComponent], as the server
    does with a path segment. *)
Fixpoint percentDecode (s : string) : string :=
  match s with
  | EmptyString => EmptyString
  | String c rest =>
      if (c =? "%")%char then
        match rest with
        | String h (String l rest') =>
            let b := 16 * hexValue h + hexValue l in
            if b <? 128 then String (ascii_of_nat b) (percentDecode rest')
            else
              match rest' with
              | String _ (String h2 (String l2 rest'')) =>
                  String (ascii_of_nat ((b - 192) * 64 + (16 * hexValue h2 + hexValue l2 - 128)))
                         (percentDecode rest'')
              | _ => String c (percentDecode rest)
              end
        | _ => String c (percentDecode rest)
        end
      else String c (percentDecode rest)
  end.

(** The name of the public method a call belongs to. *)
Definition methodName (m : ApiService.Method) : string :=
  match m with
  | ApiService.getHealth => "getHealth"
  | ApiService.getApiDocs => "getApiDocs"
  | ApiService.executeCommand _ => "executeCommand"
  | ApiService.interpretCommand _ => "interpretCommand"
  | ApiService.getCommandHistory => "getCommandHistory"
  | ApiService.getCommandSuggestions _ => "getCommandSuggestions"
  | ApiService.getSystemInfo => "getSystemInfo"
  | ApiService.getInstalledApplications => "getInstalledApplications"
  | ApiService.openApplication _ _ => "openApplication"
  | ApiService.openFolder _ _ => "openFolder"
  | ApiService.captureScreen _ => "captureScreen"
  | ApiService.analyzeScreen _ _ => "analyzeScreen"
  | ApiService.clickScreen _ _ _ => "clickScreen"
  | ApiService.scrollScreen _ _ _ _ => "scrollScreen"
  | ApiService.typeText _ _ => "typeText"
  | ApiService.pressKey _ => "pressKey"
  | ApiService.executeSystemCommand _ => "executeSystemCommand"
  | ApiService.getSystemStatus => "getSystemStatus"
  | ApiService.testSystemFunctionality => "testSystemFunctionality"
  | ApiService.searchFiles _ _ _ _ => "searchFiles"
  | ApiService.getFileInfo _ => "getFileInfo"
  | ApiService.openFile _ => "openFile"
  | ApiService.readFile _ _ _ => "readFile"
  | ApiService.writeFile _ _ _ _ => "writeFile"
  | ApiService.listDirectory _ _ => "listDirectory"
  | ApiService.createDirectory _ => "createDirectory"
  | ApiService.copyFile _ _ => "copyFile"
  | ApiService.moveFile _ _ => "moveFile"
  | ApiService.deleteFile _ _ => "deleteFile"
  | ApiService.getDiskUsage _ => "getDiskUsage"
  | ApiService.findDuplicates _ _ => "findDuplicates"
  | ApiService.cleanupTempFiles _ => "cleanupTempFiles"
  | ApiService.getFileServiceStatus => "getFileServiceStatus"
  | ApiService.searchWeb _ => "searchWeb"
  | ApiService.openWebsite _ => "openWebsite"
  | ApiService.browseUrl _ => "browseUrl"
  | ApiService.searchYouTube _ _ => "searchYouTube"
  | ApiService.searchYouTubeDirect _ => "searchYouTubeDirect"
  | ApiService.playYouTubeVideo _ => "playYouTubeVideo"
  | ApiService.playMusic _ _ => "playMusic"
  | ApiService.searchTutorials _ _ => "searchTutorials"
  | ApiService.getVideoInfo _ => "getVideoInfo"
  | ApiService.createPlaylist _ _ => "createPlaylist"
  | ApiService.getTrendingVideos _ _ => "getTrendingVideos"
  | ApiService.getMediaServiceStatus => "getMediaServiceStatus"
  | ApiService.constructUrl _ => "constructUrl"
  end.

(** The argument a method puts into the path of its URL, if it has one. *)
Definition pathArgument (m : ApiService.Method) : option string :=
  match m with
  | ApiService.openApplication appName _ => Some appName
  | ApiService.getFileInfo p | ApiService.openFile p | ApiService.readFile p _ _
  | ApiService.writeFile p _ _ _ | ApiService.listDirectory p _
  | ApiService.createDirectory p | ApiService.copyFile p _ | ApiService.moveFile p _
  | ApiService.deleteFile p _ => Some p
  | _ => None
  end.

(** The last segment of the URL of a method with a path argument: the
    operation asked for. *)
Definition pathOperation (m : ApiService.Method) : string :=
  match m with
  | ApiService.openApplication _ _ => "open"
  | ApiService.getFileInfo _ => "info"
  | ApiService.openFile _ => "open"
  | ApiService.readFile _ _ _ => "read"
  | ApiService.writeFile _ _ _ _ => "write"
  | ApiService.listDirectory _ _ => "list"
  | ApiService.createDirectory _ => "create"
  | ApiService.copyFile _ _ => "copy"
  | ApiService.moveFile _ _ => "move"
  | ApiService.deleteFile _ _ => "delete"
  | _ => ""
  end.

(** The segments before the path argument: /api/v1/system/applications
    for openApplication, /api/v1/files for the file methods. *)
Definition pathArea (m : ApiService.Method) : list string :=
  match m with
  | ApiService.openApplication _ _ => [""; "api"; "v1"; "system"; "applications"]
  | _ => [""; "api"; "v1"; "files"]
  end.

(** A file method called with the path [..]: URL resolution takes the
    request out of /api/v1/files. *)
Definition climbsOut (m : ApiService.Method) : bool :=
  match m with
  | ApiService.openApplication _ _ => false
  | _ => match pathArgument m with
         | Some p => (p =? "..")%string
         | None => false
         end
  end.

(** [n] slashes. *)
Fixpoint slashes (n : nat) : string :=
  match n with
  | O => ""
  | S n' => String "/" (slashes n')
  end.

(** A pathname that is a route path up to the case of its letters and
    slashes at its end. *)
Definition sameLocation (path pathname : string) : Prop :=
  exists n, toUpperCase pathname = toUpperCase path +:+ slashes n.

(** A pathname as the router is given one: it starts with a slash and
    holds no percent-escape and no line break. *)
Definition plainPathname (pathname : string) : bool :=
  String.prefix "/" pathname
  && forallb (fun c => negb (c =? "%")%char && negb (App.isLineTerminator c))
             (list_ascii_of_string pathname).

(** The message types of a conversation of [k] completed exchanges
    after the greeting, with or without an unanswered user message. *)
Fixpoint exchanges (k : nat) : list Chat.MessageType :=
  match k with
  | O => [Chat.assistant]
  | S k' => exchanges k' ++ [Chat.user; Chat.assistant]
  end.

Definition conversation (k : nat) (pending : bool) : list Chat.MessageType :=
  exchanges k ++ if pending then [Chat.user] else [].

Definition isUser (m : Chat.ChatMessage) : bool :=
  match Chat.msg_type m with
  | Chat.user => true
  | Chat.assistant => false
  end.

(** What the user has said so far, oldest first. *)
Definition userContents (p : Chat.Page) : list Value :=
  map Chat.content (List.filter isUser (Chat.messages p)).

(** The sidebar entries highlighted at a location. *)
Definition activeItems (pathname : string) : list Layout.NavigationItem :=
  List.filter (Layout.isActive pathname) Layout.navigation.

(** The times at which loadDashboardData is invoked over a sequence of
    visits starting at [t0]. *)
Fixpoint visitTimes (t0 : N) (vs : list (N * N)) : list N :=
  match vs with
  | [] => []
  | (stay, away) :: rest =>
      pollTimes t0 (S (N.to_nat (stay / 5000))) ++ visitTimes (t0 + stay + away) rest
  end.

(** The call the Chat page makes for a user message. *)
Definition requestOf (c : Value) : ApiService.Method :=
  ApiService.executeCommand (Obj [("command", c); ("user_id", Str "user")]).

(** A string that is not empty and that trimming leaves as it is. *)
Definition trimmedText (v : Value) : Prop :=
  exists c, v = Str c /\ trim c = c /\ c <> "".

(** What holds of the Chat page in every state it can reach. *)
Record ChatInvariant (p : Chat.Page) : Prop := {
  inv_awaiting : Chat.awaiting p = if Chat.isLoading p then 1 else 0;
  inv_shape : exists k, map Chat.msg_type (Chat.messages p) = conversation k (Chat.isLoading p)
                        /\ length (Chat.calls p) = k + Chat.awaiting p;
  inv_calls : Chat.calls p = map requestOf (userContents p);
  inv_trimmed : Forall trimmedText (userContents p)
}.

(** A command the backend carried out. *)
Definition completedCommand : Value :=
  Obj [("success", Boolean true);
       ("data", Obj [("response", Str "Opening Chrome"); ("action", Str "open_app")])].

(** The two requests of one load of the SystemInfo page. *)
Definition bothCalls : list ApiService.Method :=
  [ApiService.getSystemInfo; ApiService.getSystemStatus].

(** What holds of the SystemInfo page in every state it can reach. *)
Record SystemInfoInvariant (p : SystemInfoPage.Page) : Prop := {
  si_awaiting : SystemInfoPage.awaiting p
                = if SystemInfo.refreshing (SystemInfoPage.state p) then 1 else 0;
  si_first : SystemInfo.loading (SystemInfoPage.state p) = true ->
             SystemInfo.refreshing (SystemInfoPage.state p) = true
             /\ SystemInfoPage.calls p = bothCalls;
  si_calls : exists k, SystemInfoPage.calls p = List.concat (List.repeat bothCalls (S k))
}.

(* ================================================================== *)
(** * Properties *)
(* ================================================================== *)

(** Forget what an escaped argument looks like inside. *)
Ltac forget_escapes H :=
  repeat match type of H with
         | context [encodeURIComponent ?p] =>
             let e := fresh "e" in set (e := encodeURIComponent p) in H; clearbody e
         end.

(** Linear arithmetic with division and remainder by a constant. *)
Ltac divlia := zify; Z.to_euclidean_division_equations; lia.

(** ** Strings *)

Lemma trimStart_whitespace (s : string) :
  Forall (fun c => isWhiteSpace c = true) (list_ascii_of_string s) -> trimStart s = "".
Proof.
  induction s as [|c s IH]; simpl; intros H; [reflexivity|].
  inversion H as [|? ? Hc Hs]; subst. rewrite Hc. auto.
Qed.

Lemma trim_whitespace (s : string) :
  Forall (fun c => isWhiteSpace c = true) (list_ascii_of_string s) -> trim s = "".
Proof. intros H. unfold trim. rewrite trimStart_whitespace by exact H. reflexivity. Qed.

Lemma prefix_append (s t : string) : String.prefix s (s +:+ t) = true.
Proof.
  induction s as [|c s IH]; simpl; [destruct t; reflexivity|].
  destruct (ascii_dec c c); [exact IH|contradiction].
Qed.

Example trim_inner_space_kept : trim "  open  chrome " = "open  chrome".
Proof. reflexivity. Qed.

Example encodeURIComponent_path :
  encodeURIComponent "C:/My Files/a+b.txt" = "C%3A%2FMy%20Files%2Fa%2Bb.txt".
Proof. reflexivity. Qed.

Example encodeURIComponent_latin1 :
  encodeURIComponent (String (ascii_of_nat 233) "") = "%C3%A9".
Proof. reflexivity. Qed.

Example title_of_unknown_path : Layout.title "/nowhere" = "JARVIS AI".
Proof. reflexivity. Qed.

(** ** The API client *)

(** Every call of a public method runs the request interceptor, sends
    exactly one request and runs the response interceptor matching the
    way it settled. *)
Lemma invoke_run (vite : option string) (net : Network) (m : ApiService.Method) (w : World) :
  let cfg := wireConfig vite m in
  let o := net (length (sent w)) cfg in
  exists entry1 entry2,
    ApiService.invoke (apiService vite) net m w =
      ({| console := (console w ++ [entry1]) ++ [entry2]; sent := sent w ++ [cfg] |},
       outcome o).
Proof.
  intros cfg o.
  unfold ApiService.invoke, ApiService.request, try_catch, then_, Axios.request,
    Axios.bind, then_, chain, apiService, ApiService.constructor, Axios.create,
    useRequest, useResponse; cbn [ApiService.client
    response_interceptors request_interceptors defaults rev app fold_left
    onFulfilled onRejected].
  unfold then_, ret, ApiService.request_onFulfilled, ApiService.response_onFulfilled,
    ApiService.response_onRejected, Axios.bind, then_, log, dispatchRequest, throw, ret;
    cbn [console sent fst snd].
  change (mergeConfig _ (ApiService.requestConfig _ _ _ _)) with cfg.
  fold o. unfold outcome, settle.
  destruct o as [st body|msg].
  - destruct (validateStatus st) eqn:Hst; cbn [orb r_data status r_config console sent].
    + eexists _, _. reflexivity.
    + unfold ApiService.request_catch; cbn [response_data err_data].
      destruct (truthy body); eexists _, _; reflexivity.
  - unfold ApiService.request_catch; cbn [response_data truthy orb].
    eexists _, _. reflexivity.
Qed.

(** C1 (as stated, refuted): an error response can carry a body and
    still be re-thrown.  The server answers 500 with the JSON body
    [false]; the body is there, but it is falsy, so [request] throws the
    axios error instead of returning the body. *)
Lemma falsy_error_body_is_rethrown :
  carriesBody (Boolean false) = true /\
  snd (ApiService.invoke (apiService None) (always (HttpReply 500 (Boolean false)))
                         ApiService.getSystemStatus quiet)
  = Rejected (AxiosError "Request failed with status code 500"
                         (Some {| err_status := 500; err_data := Boolean false |})).
Proof. split; reflexivity. Qed.

(** C1 (amended): for every API-client method the promise settles by
    what the network did.  A 2xx reply resolves to the parsed body as it
    is; a failed reply whose body is truthy resolves to that body
    instead of throwing; a failed reply with a falsy body (undefined,
    null, false, 0, the empty string) and a request that got no reply
    are re-thrown as the axios error.  The value resolved is always the
    body the server sent, so it is an envelope whenever the server sent
    one. *)
Theorem request_settles_by_body (vite : option string) (net : Network)
    (m : ApiService.Method) (w : World) :
  let r := snd (ApiService.invoke (apiService vite) net m w) in
  let o := net (length (sent w)) (wireConfig vite m) in
  r = match o with
      | HttpReply st body =>
          if validateStatus st then Fulfilled body
          else if truthy body then Fulfilled body
          else Rejected (AxiosError ("Request failed with status code " +:+ toString st)
                                    (Some {| err_status := st; err_data := body |}))
      | NoReply msg => Rejected (AxiosError msg None)
      end
  /\ (forall st body, o = HttpReply st body ->
        ApiService.isEnvelope body = true -> r = Fulfilled body)
  /\ (forall v, r = Fulfilled v ->
        exists st, o = HttpReply st v /\ (validateStatus st = true \/ truthy v = true)).
Proof.
  intros r o. destruct (invoke_run vite net m w) as (e1 & e2 & H).
  subst r. rewrite H. cbn [snd]. fold o. unfold outcome.
  destruct o as [st body|msg]; [destruct (validateStatus st) eqn:Hst;
    [|destruct (truthy body) eqn:Hb]|]; cbn [orb]; (split; [reflexivity|split]).
  all: try (intros st' body' [= <- <-] Henv; try reflexivity;
            destruct body; discriminate).
  all: try (intros st' body' [=]).
  all: intros v Hv; try discriminate; injection Hv as <-; exists st; auto.
Qed.

Lemma request_settles_by_body_witness :
  snd (ApiService.invoke (apiService None)
         (always (HttpReply 404 (Obj [("success", Boolean false);
                                      ("error", Obj [("error_code", Str "NOT_FOUND");
                                                     ("message", Str "no such file")])])))
         (ApiService.getFileInfo "a b") quiet)
  = Fulfilled (Obj [("success", Boolean false);
                    ("error", Obj [("error_code", Str "NOT_FOUND");
                                   ("message", Str "no such file")])]).
Proof.
  apply (proj1 (proj2 (request_settles_by_body None _ (ApiService.getFileInfo "a b") quiet)) 404%Z);
    reflexivity.
Defined.

Example toJson_leaves_out_undefined :
  toJson (Obj [("a", Undefined); ("b", Arr [Number 1; Undefined]);
               ("c", Obj [("d", Undefined); ("e", Str "x")])])
  = Some (Obj [("b", Arr [Number 1; Null]); ("c", Obj [("e", Str "x")])]).
Proof. reflexivity. Qed.




Lemma escape_cons (c : ascii) (r : string) :
  encodeURIComponent (String c r) = escapeCodeUnit c +:+ encodeURIComponent r.
Proof. reflexivity. Qed.

Lemma decode_escape (c : ascii) (r : string) :
  percentDecode (escapeCodeUnit c +:+ r) = String c (percentDecode r).
Proof.
  destruct c as [[] [] [] [] [] [] [] []]; reflexivity.
Qed.

Lemma decode_encode (s : string) : percentDecode (encodeURIComponent s) = s.
Proof.
  induction s as [|c s IH]; [reflexivity|].
  rewrite escape_cons, decode_escape, IH. reflexivity.
Qed.

Lemma encode_inj (a b : string) :
  encodeURIComponent a = encodeURIComponent b -> a = b.
Proof.
  intros H. rewrite <- (decode_encode a), <- (decode_encode b), H. reflexivity.
Qed.

Lemma slashFree_app (a b : string) :
  slashFree (a +:+ b) = slashFree a && slashFree b.
Proof.
  induction a as [|c a IH]; [reflexivity|].
  unfold slashFree in *. simpl. rewrite IH, andb_assoc. reflexivity.
Qed.

Lemma slashFree_escape (c : ascii) : slashFree (escapeCodeUnit c) = true.
Proof. destruct c as [[] [] [] [] [] [] [] []]; reflexivity. Qed.

Lemma slashFree_encode (s : string) : slashFree (encodeURIComponent s) = true.
Proof.
  induction s as [|c s IH]; [reflexivity|].
  rewrite escape_cons, slashFree_app, slashFree_escape, IH. reflexivity.
Qed.

Lemma segments_slashFree (a r : string) :
  slashFree a = true -> segments (a +:+ String "/" r) = a :: segments r.
Proof.
  induction a as [|c a IH]; intros H; [reflexivity|].
  unfold slashFree in H. cbn [list_ascii_of_string forallb] in H.
  apply andb_prop in H as [Hc Ha].
  simpl. apply negb_true_iff in Hc. rewrite Hc, (IH Ha). reflexivity.
Qed.

Lemma segments_filesUrl (p op : string) :
  segments (ApiService.filesUrl p (String "/" op))
  = "" :: "api" :: "v1" :: "files" :: encodeURIComponent p :: segments op.
Proof.
  unfold ApiService.filesUrl.
  change (segments ("/api/v1/files/" +:+ encodeURIComponent p +:+ String "/" op))
    with ("" :: "api" :: "v1" :: "files" :: segments (encodeURIComponent p +:+ String "/" op)).
  rewrite segments_slashFree by apply slashFree_encode. reflexivity.
Qed.

Lemma segments_applicationUrl (appName op : string) :
  segments ("/api/v1/system/applications/" +:+ encodeURIComponent appName +:+ String "/" op)
  = "" :: "api" :: "v1" :: "system" :: "applications" :: encodeURIComponent appName
       :: segments op.
Proof.
  change (segments ("/api/v1/system/applications/" +:+ encodeURIComponent appName
                    +:+ String "/" op))
    with ("" :: "api" :: "v1" :: "system" :: "applications"
             :: segments (encodeURIComponent appName +:+ String "/" op)).
  rewrite segments_slashFree by apply slashFree_encode. reflexivity.
Qed.


Lemma method_is_upper (m : ApiService.Method) :
  toUpperCase (ApiService.c_method (ApiService.call m)) = ApiService.c_method (ApiService.call m).
Proof. destruct m; reflexivity. Qed.

Lemma escape_alphabet (c : ascii) :
  forallb (fun x => isUnreserved x || (x =? "%")%char) (list_ascii_of_string (escapeCodeUnit c))
  = true.
Proof. destruct c as [[] [] [] [] [] [] [] []]; reflexivity. Qed.

Lemma encode_alphabet (s : string) :
  forallb (fun x => isUnreserved x || (x =? "%")%char)
          (list_ascii_of_string (encodeURIComponent s)) = true.
Proof.
  induction s as [|c s IH]; [reflexivity|].
  rewrite escape_cons.
  assert (E : forall a b, list_ascii_of_string (a +:+ b)
                          = list_ascii_of_string a ++ list_ascii_of_string b).
  { intros a b. induction a as [|x a IHa]; [reflexivity|]. simpl. rewrite IHa. reflexivity. }
  rewrite E, forallb_app, escape_alphabet, IH. reflexivity.
Qed.

Lemma append_empty (a : string) : a +:+ "" = a.
Proof.
  induction a as [|c a IH]; [reflexivity|].
  change (String c (a +:+ "") = String c a). rewrite IH. reflexivity.
Qed.

(** An escaped argument is a dot segment only when the argument itself
    is one: escaping leaves dots alone and never writes an escaped dot. *)
Lemma encode_double_dot (p : string) :
  Url.isDoubleDot (encodeURIComponent p) = true -> p = "..".
Proof.
  unfold Url.isDoubleDot. rewrite existsb_exists. intros (t & Hin & Heq).
  apply String.eqb_eq in Heq. pose proof (decode_encode p) as Hp. rewrite Heq in Hp.
  cbn in Hin.
  repeat (destruct Hin as [<-|Hin];
          [first [ symmetry; exact Hp
                 | exfalso; subst p; vm_compute in Heq; discriminate Heq ]|]).
  contradiction.
Qed.

Lemma encode_single_dot (p : string) :
  Url.isSingleDot (encodeURIComponent p) = true -> p = ".".
Proof.
  unfold Url.isSingleDot. rewrite existsb_exists. intros (t & Hin & Heq).
  apply String.eqb_eq in Heq. pose proof (decode_encode p) as Hp. rewrite Heq in Hp.
  cbn in Hin.
  repeat (destruct Hin as [<-|Hin];
          [first [ symmetry; exact Hp
                 | exfalso; subst p; vm_compute in Heq; discriminate Heq ]|]).
  contradiction.
Qed.

(** Resolving the URL of a method with a path argument: the escaped
    argument [e] is kept unless it is a dot segment. *)
Lemma shorten_files (e op : string) :
  Url.isDoubleDot op = false -> Url.isSingleDot op = false ->
  Url.shorten ["api"; "v1"; "files"; e; op] []
  = if Url.isDoubleDot e then ["api"; "v1"; op]
    else if Url.isSingleDot e then ["api"; "v1"; "files"; op]
    else ["api"; "v1"; "files"; e; op].
Proof.
  intros Hd Hs. cbn [Url.shorten].
  change (Url.isDoubleDot "api") with false. change (Url.isDoubleDot "v1") with false.
  change (Url.isDoubleDot "files") with false.
  change (Url.isSingleDot "api") with false. change (Url.isSingleDot "v1") with false.
  change (Url.isSingleDot "files") with false. cbv iota.
  destruct (Url.isDoubleDot e); [|destruct (Url.isSingleDot e)];
    cbn [Url.shorten tl]; rewrite Hd, Hs; reflexivity.
Qed.

Lemma shorten_applications (e op : string) :
  Url.isDoubleDot op = false -> Url.isSingleDot op = false ->
  Url.shorten ["api"; "v1"; "system"; "applications"; e; op] []
  = if Url.isDoubleDot e then ["api"; "v1"; "system"; op]
    else if Url.isSingleDot e then ["api"; "v1"; "system"; "applications"; op]
    else ["api"; "v1"; "system"; "applications"; e; op].
Proof.
  intros Hd Hs. cbn [Url.shorten].
  change (Url.isDoubleDot "api") with false. change (Url.isDoubleDot "v1") with false.
  change (Url.isDoubleDot "system") with false.
  change (Url.isDoubleDot "applications") with false.
  change (Url.isSingleDot "api") with false. change (Url.isSingleDot "v1") with false.
  change (Url.isSingleDot "system") with false.
  change (Url.isSingleDot "applications") with false. cbv iota.
  destruct (Url.isDoubleDot e); [|destruct (Url.isSingleDot e)];
    cbn [Url.shorten tl]; rewrite Hd, Hs; reflexivity.
Qed.

Lemma resolve_filesUrl (p op : string) :
  segments op = [op] -> Url.isDoubleDot op = false -> Url.isSingleDot op = false ->
  Url.resolve (ApiService.filesUrl p (String "/" op))
  = if Url.isDoubleDot (encodeURIComponent p) then "/api/v1/" +:+ op
    else if Url.isSingleDot (encodeURIComponent p) then "/api/v1/files/" +:+ op
    else ApiService.filesUrl p (String "/" op).
Proof.
  intros Hseg Hd Hs. unfold Url.resolve. rewrite segments_filesUrl, Hseg.
  rewrite (shorten_files _ _ Hd Hs). unfold ApiService.filesUrl.
  destruct (Url.isDoubleDot (encodeURIComponent p));
    [|destruct (Url.isSingleDot (encodeURIComponent p))];
    cbn [Url.serialize]; rewrite append_empty; reflexivity.
Qed.

Lemma resolve_applicationUrl (appName op : string) :
  segments op = [op] -> Url.isDoubleDot op = false -> Url.isSingleDot op = false ->
  Url.resolve ("/api/v1/system/applications/" +:+ encodeURIComponent appName +:+ String "/" op)
  = if Url.isDoubleDot (encodeURIComponent appName) then "/api/v1/system/" +:+ op
    else if Url.isSingleDot (encodeURIComponent appName)
         then "/api/v1/system/applications/" +:+ op
    else "/api/v1/system/applications/" +:+ encodeURIComponent appName +:+ String "/" op.
Proof.
  intros Hseg Hd Hs. unfold Url.resolve. rewrite segments_applicationUrl, Hseg.
  rewrite (shorten_applications _ _ Hd Hs).
  destruct (Url.isDoubleDot (encodeURIComponent appName));
    [|destruct (Url.isSingleDot (encodeURIComponent appName))];
    cbn [Url.serialize]; rewrite append_empty; reflexivity.
Qed.

Example resolve_parent_of_files :
  Url.resolve (ApiService.c_url (ApiService.call (ApiService.getFileInfo "..")))
  = "/api/v1/info".
Proof. reflexivity. Qed.

Example resolve_keeps_empty_segments : Url.resolve "/a//b/./c/../d/" = "/a//b/d/".
Proof. reflexivity. Qed.

Example resolve_dot_at_the_end : Url.resolve "/a/b/.." = "/a/".
Proof. reflexivity. Qed.

Example resolve_escaped_dots : Url.resolve "/a/b/%2E%2e/%2e/c" = "/a/c".
Proof. reflexivity. Qed.

(** C4 (as stated, refuted): the health check is a request of the API
    client, and its path /health is under none of the versioned
    namespaces. *)
Lemma getHealth_is_not_versioned :
  map url (sent (fst (ApiService.invoke (apiService None) (always (NoReply "Network Error"))
                        ApiService.getHealth quiet)))
  = [Some "/health"]
  /\ versioned "/health" = false.
Proof. split; reflexivity. Qed.

Lemma versioned_under (ns rest : string) :
  In ns namespaces -> versioned (("/api/v1/" +:+ ns +:+ "/") +:+ rest) = true.
Proof.
  intros Hns. unfold versioned. apply existsb_exists.
  exists ns. split; [exact Hns|apply prefix_append].
Qed.

(** C4 (amended): every call of an API-client method issues exactly one
    HTTP request, for the URL the method names.  Leaving aside a file
    method called with the path [..], the path requested, which is that
    URL with its dot segments resolved, is under /api/v1/commands/,
    /api/v1/system/, /api/v1/files/ or /api/v1/media/ for every method
    other than getHealth (/health) and getApiDocs (/api/docs).  The
    client sends nothing else.  (Arguments are strings of the model:
    a path with a lone surrogate makes the method reject before it
    sends anything.) *)
Theorem requests_are_versioned (vite : option string) (net : Network)
    (m : ApiService.Method) (w : World) :
  let u := ApiService.c_url (ApiService.call m) in
  map url (sent (fst (ApiService.invoke (apiService vite) net m w)))
    = map url (sent w) ++ [Some u]
  /\ (climbsOut m = false ->
      versioned (Url.resolve u) = true
      \/ (m = ApiService.getHealth /\ Url.resolve u = "/health")
      \/ (m = ApiService.getApiDocs /\ Url.resolve u = "/api/docs")).
Proof.
  intros u. destruct (invoke_run vite net m w) as (e1 & e2 & H).
  rewrite H. cbn [fst sent]. split.
  - rewrite map_app. reflexivity.
  - intros Hclimb. subst u. destruct m; cbn [ApiService.call ApiService.c_url ApiService.GET
                                ApiService.POST ApiService.DELETE];
      first [ left; reflexivity
            | right; left; split; reflexivity
            | right; right; split; reflexivity
            | left; rewrite resolve_applicationUrl by reflexivity;
              destruct (Url.isDoubleDot _); [reflexivity|];
              destruct (Url.isSingleDot _); [reflexivity|];
              apply (versioned_under "system"); simpl; tauto
            | left; rewrite resolve_filesUrl by reflexivity;
              destruct (Url.isDoubleDot _) eqn:Hdd;
              [ apply encode_double_dot in Hdd; subst; discriminate Hclimb |];
              destruct (Url.isSingleDot _); [reflexivity|];
              apply (versioned_under "files"); simpl; tauto ].
Qed.

Lemma requests_are_versioned_witness :
  climbsOut (ApiService.readFile "../notes.txt" None None) = false
  /\ (versioned (Url.resolve "/api/v1/files/..%2Fnotes.txt/read") = true
      \/ (ApiService.readFile "../notes.txt" None None = ApiService.getHealth
          /\ Url.resolve "/api/v1/files/..%2Fnotes.txt/read" = "/health")
      \/ (ApiService.readFile "../notes.txt" None None = ApiService.getApiDocs
          /\ Url.resolve "/api/v1/files/..%2Fnotes.txt/read" = "/api/docs")).
Proof.
  split; [reflexivity|].
  exact (proj2 (requests_are_versioned None (always (NoReply "Network Error"))
                  (ApiService.readFile "../notes.txt" None None) quiet) eq_refl).
Defined.

(** C8: the four interceptor callbacks only write to the console.  A
    request configuration and a response are handed on as they came, an
    error is rejected as it came, nothing is sent; hence a call through
    the client settles exactly as it would without interceptors, and
    sends the same request. *)
Theorem interceptors_only_log (config : RequestConfig) (response : Response)
    (error : Error) (w : World) :
  (exists e, ApiService.request_onFulfilled config w
             = ({| console := console w ++ [e]; sent := sent w |}, Fulfilled config))
  /\ (exists e, ApiService.request_onRejected error w
                = ({| console := console w ++ [e]; sent := sent w |}, Rejected error))
  /\ (exists e, ApiService.response_onFulfilled response w
                = ({| console := console w ++ [e]; sent := sent w |}, Fulfilled response))
  /\ (exists e, ApiService.response_onRejected error w
                = ({| console := console w ++ [e]; sent := sent w |}, Rejected error))
  /\ (forall vite net,
        let inst := ApiService.client (apiService vite) in
        snd (Axios.request inst net config w) = snd (Axios.request (bare inst) net config w)
        /\ sent (fst (Axios.request inst net config w))
           = sent (fst (Axios.request (bare inst) net config w))).
Proof.
  repeat split; try (eexists; reflexivity).
  - unfold Axios.request, chain, Axios.bind, then_, dispatchRequest; cbn.
    destruct (settle _ _); reflexivity.
  - unfold Axios.request, chain, Axios.bind, then_, dispatchRequest; cbn.
    destruct (settle _ _); reflexivity.
Qed.

(** ** The Chat page *)

Lemma blank_blocked (p : Chat.Page) :
  blank (Chat.input p) \/ Chat.isLoading p = true -> Chat.blocked p = true.
Proof.
  unfold Chat.blocked. intros [H|H].
  - rewrite (trim_whitespace _ H). reflexivity.
  - rewrite H. apply orb_true_r.
Qed.

Lemma answer_assistant (now : Z) (response : Value) (m : Chat.ChatMessage) :
  Chat.answer now response = Fulfilled m -> Chat.msg_type m = Chat.assistant.
Proof.
  unfold Chat.answer.
  destruct response as [| |b|n|s|xs|ps]; cbn [get Js.bind]; try discriminate;
    try (intros [= <-]; reflexivity).
  destruct (truthy (Js.and _ _)); [|intros [= <-]; reflexivity].
  destruct (lookup_prop "data" ps); cbn [get Js.bind]; try discriminate;
    intros [= <-]; reflexivity.
Qed.

Lemma resume_appends (now : Z) (r : Settled Value) (p : Chat.Page) :
  exists a, Chat.messages (Chat.handleSendMessage_resume now r p) = Chat.messages p ++ [a]
            /\ Chat.msg_type a = Chat.assistant.
Proof.
  unfold Chat.handleSendMessage_resume. cbn [Chat.messages].
  destruct (Js.bind r (Chat.answer now)) as [m|e] eqn:H.
  - exists m. split; [reflexivity|].
    destruct r as [v|e']; [|discriminate]. exact (answer_assistant _ _ _ H).
  - eexists. split; reflexivity.
Qed.

Lemma step_prefix (p : Chat.Page) (e : Chat.Event) :
  Chat.messages p `prefix_of` Chat.messages (Chat.step p e).
Proof.
  destruct e as [s|now|now r|]; cbn [Chat.step Chat.setInput Chat.toggleVoiceListening
                                      Chat.messages]; try reflexivity.
  - unfold Chat.handleSendMessage_start. destruct (Chat.blocked p); [reflexivity|].
    cbn [Chat.messages]. apply prefix_app_r. reflexivity.
  - destruct (Chat.awaiting p); [reflexivity|].
    cbn [Chat.handleSendMessage_resume Chat.messages]. apply prefix_app_r. reflexivity.
Qed.

Lemma run_prefix (es : list Chat.Event) (p : Chat.Page) :
  Chat.messages p `prefix_of` Chat.messages (Chat.run es p).
Proof.
  revert p. induction es as [|e es IH]; intros p; [reflexivity|].
  cbn [Chat.run fold_left]. etrans; [apply (step_prefix p e)|apply IH].
Qed.

(** While a command is in flight, nothing but its settlement touches the
    messages, the flag, the calls or the suspended continuation. *)
Lemma run_in_flight (es : list Chat.Event) (p : Chat.Page) :
  Chat.isLoading p = true ->
  forallb (fun e => negb (Chat.isSettle e)) es = true ->
  Chat.messages (Chat.run es p) = Chat.messages p
  /\ Chat.isLoading (Chat.run es p) = true
  /\ Chat.calls (Chat.run es p) = Chat.calls p
  /\ Chat.awaiting (Chat.run es p) = Chat.awaiting p.
Proof.
  revert p. induction es as [|e es IH]; intros p Hl Hes; [auto|].
  cbn [forallb] in Hes. apply andb_prop in Hes as [He Hes].
  cbn [Chat.run fold_left].
  assert (Hstep : Chat.messages (Chat.step p e) = Chat.messages p
                  /\ Chat.isLoading (Chat.step p e) = true
                  /\ Chat.calls (Chat.step p e) = Chat.calls p
                  /\ Chat.awaiting (Chat.step p e) = Chat.awaiting p).
  { destruct e as [s|now|now r|]; cbn [Chat.step]; try discriminate He; auto.
    unfold Chat.handleSendMessage_start, Chat.blocked. rewrite Hl, orb_true_r. auto. }
  destruct Hstep as (Hm & Hl' & Hc & Ha).
  destruct (IH (Chat.step p e) Hl' Hes) as (Hm2 & Hl2 & Hc2 & Ha2).
  unfold Chat.run in *. rewrite Hm2, Hl2, Hc2, Ha2. auto.
Qed.





(** C9: when the input is empty or white space only, or while a
    command is in flight (isLoading), handleSendMessage changes nothing:
    the messages, the input and the loading flag stay as they are, and
    the page asks nothing of the API client, so no HTTP request is
    made. *)
Theorem blocked_send_is_noop (now now' : Z) (r : Settled Value) (p : Chat.Page) :
  blank (Chat.input p) \/ Chat.isLoading p = true ->
  Chat.handleSendMessage_start now p = p
  /\ Chat.handleSendMessage now now' r p = p
  /\ Chat.step p (Chat.Send now) = p.
Proof.
  intros H. apply blank_blocked in H.
  unfold Chat.handleSendMessage; cbn [Chat.step]; unfold Chat.handleSendMessage_start.
  rewrite H. auto.
Qed.

Lemma blocked_send_is_noop_witness :
  Chat.handleSendMessage 1000 1250 (Fulfilled Null) (Chat.setInput "  " (Chat.initial 0))
  = Chat.setInput "  " (Chat.initial 0).
Proof.
  apply (blocked_send_is_noop 1000 1250 (Fulfilled Null) (Chat.setInput "  " (Chat.initial 0))).
  left. unfold blank. cbn. repeat constructor.
Defined.

(** C10: the message list only grows at its end, whatever happens to the
    page; and a send that goes through appends exactly two messages by
    the time it has settled, first the user message holding the trimmed
    input, then one assistant message, whichever branch produced it and
    whatever the user did in between. *)
Theorem messages_append_only :
  (forall es p, Chat.messages p `prefix_of` Chat.messages (Chat.run es p))
  /\ (forall now now' r es p,
        Chat.blocked p = false ->
        forallb (fun e => negb (Chat.isSettle e)) es = true ->
        exists a,
          Chat.messages (Chat.run (Chat.Send now :: es ++ [Chat.Settle now' r]) p)
            = Chat.messages p ++ [Chat.userMessage now p; a]
          /\ Chat.msg_type (Chat.userMessage now p) = Chat.user
          /\ Chat.content (Chat.userMessage now p) = Str (trim (Chat.input p))
          /\ Chat.msg_type a = Chat.assistant).
Proof.
  split; [exact run_prefix|].
  intros now now' r es p Hb Hes.
  unfold Chat.run. cbn [fold_left]. rewrite fold_left_app. cbn [fold_left].
  set (p1 := Chat.step p (Chat.Send now)).
  assert (H1 : Chat.messages p1 = Chat.messages p ++ [Chat.userMessage now p]
               /\ Chat.isLoading p1 = true /\ Chat.awaiting p1 = S (Chat.awaiting p)).
  { subst p1. cbn [Chat.step]. unfold Chat.handleSendMessage_start. rewrite Hb. auto. }
  destruct H1 as (Hm1 & Hl1 & Ha1).
  destruct (run_in_flight es p1 Hl1 Hes) as (Hm2 & _ & _ & Ha2).
  unfold Chat.run in Hm2, Ha2.
  cbn [Chat.step]. rewrite Ha2, Ha1.
  destruct (resume_appends now' r (fold_left Chat.step es p1)) as (a & Hm3 & Ht).
  exists a. rewrite Hm3, Hm2, Hm1, <- app_assoc. auto.
Qed.

Lemma messages_append_only_witness :
  exists a,
    Chat.messages (Chat.run (Chat.Send 1000 :: [Chat.Edit "next"; Chat.Send 1100]
                               ++ [Chat.Settle 1250 (Rejected (AxiosError "Network Error" None))])
                            (Chat.setInput "hello" (Chat.initial 0)))
      = Chat.messages (Chat.setInput "hello" (Chat.initial 0))
          ++ [Chat.userMessage 1000 (Chat.setInput "hello" (Chat.initial 0)); a]
    /\ Chat.msg_type (Chat.userMessage 1000 (Chat.setInput "hello" (Chat.initial 0))) = Chat.user
    /\ Chat.content (Chat.userMessage 1000 (Chat.setInput "hello" (Chat.initial 0)))
       = Str (trim (Chat.input (Chat.setInput "hello" (Chat.initial 0))))
    /\ Chat.msg_type a = Chat.assistant.
Proof.
  apply (proj2 messages_append_only 1000%Z 1250%Z); reflexivity.
Defined.

(** ** Status snapshots *)






(** ** The Dashboard's polling timer *)

Lemma pollTimes_next (t0 n : N) :
  (N.succ n mod 5000 = 0)%N ->
  pollTimes t0 (S (N.to_nat (N.succ n / 5000)))
  = pollTimes t0 (S (N.to_nat (n / 5000))) ++ [N.succ (t0 + n)].
Proof.
  intros H.
  assert (Hk : N.to_nat (N.succ n / 5000) = S (N.to_nat (n / 5000))) by divlia.
  rewrite Hk. cbn [pollTimes]. do 2 f_equal. divlia.
Qed.

(** The mounted Dashboard after [n] milliseconds: one timer, due at the
    next multiple of 5000 ms since mount, and one invocation of
    loadDashboardData per period so far. *)
Lemma polling (t0 n : N) :
  let m := Dashboard.advance n (Dashboard.mount (Dashboard.opened t0)) in
  Timers.now (Dashboard.clock m) = (t0 + n)%N
  /\ Timers.timers (Dashboard.clock m)
     = [ {| Timers.timer_id := 1; Timers.delay := 5000;
            Timers.due := (t0 + 5000 * (n / 5000 + 1))%N;
            Timers.callback := Dashboard.loadDashboardData |} ]
  /\ Dashboard.interval m = Some 1
  /\ Dashboard.invoked m = pollTimes t0 (S (N.to_nat (n / 5000))).
Proof.
  induction n as [|n IH] using N.peano_ind.
  - change (0 / 5000)%N with 0%N. cbn. repeat split; try lia.
    change (N.to_nat 0) with O. cbn [pollTimes app]. f_equal. lia.
  - cbn zeta in IH. destruct IH as (Hnow & Htm & Hint & Hinv).
    unfold Dashboard.advance in *. rewrite N.iter_succ.
    set (m := N.iter n Dashboard.tick _) in *.
    unfold Dashboard.tick, Timers.tick.
    cbn [Dashboard.clock Dashboard.interval Dashboard.invoked Timers.now Timers.timers].
    rewrite Hnow, Htm, Hint, Hinv. unfold Timers.rearm.
    cbn [List.filter map Timers.due Timers.callback Timers.delay Timers.timer_id].
    destruct (N.eqb_spec (t0 + 5000 * (n / 5000 + 1)) (N.succ (t0 + n))) as [Hdue|Hdue].
    + assert (Hmod : (N.succ n mod 5000 = 0)%N) by divlia.
      cbn [map N.max N.compare Pos.compare Pos.compare_cont].
      repeat split; [lia| |].
      * do 2 f_equal. divlia.
      * symmetry. apply pollTimes_next, Hmod.
    + assert (Hk : (N.succ n / 5000 = n / 5000)%N) by divlia.
      rewrite Hk, app_nil_r. repeat split. lia.
Qed.

Lemma idle (k : N) (m : Dashboard.Mounted) :
  Timers.timers (Dashboard.clock m) = [] ->
  Timers.timers (Dashboard.clock (Dashboard.advance k m)) = []
  /\ Dashboard.invoked (Dashboard.advance k m) = Dashboard.invoked m.
Proof.
  intros H. induction k as [|k IH] using N.peano_ind; [auto|].
  unfold Dashboard.advance in *. rewrite N.iter_succ. destruct IH as [Ht Hi].
  set (m' := N.iter k Dashboard.tick m) in *.
  unfold Dashboard.tick, Timers.tick.
  cbn [Dashboard.clock Dashboard.invoked Timers.timers]. rewrite Ht, Hi.
  cbn. rewrite app_nil_r. auto.
Qed.

(** C6: the Dashboard loads its data when it mounts and starts a timer
    that invokes loadDashboardData again every 5000 ms: after n ms the
    invocations are those at the mount time t0 and at t0 + 5000,
    t0 + 10000, ... up to t0 + n.  Unmounting clears that timer: no timer
    is left and, however much time passes, no further invocation
    happens. *)
Theorem dashboard_polls_every_5000ms (t0 n k : N) :
  let m := Dashboard.advance n (Dashboard.mount (Dashboard.opened t0)) in
  Dashboard.invoked m = pollTimes t0 (S (N.to_nat (n / 5000)))
  /\ Timers.timers (Dashboard.clock (Dashboard.unmount m)) = []
  /\ Dashboard.invoked (Dashboard.advance k (Dashboard.unmount m)) = Dashboard.invoked m.
Proof.
  intros m. destruct (polling t0 n) as (Hnow & Htm & Hint & Hinv). fold m in Hnow, Htm, Hint, Hinv.
  split; [exact Hinv|].
  assert (Hclear : Timers.timers (Dashboard.clock (Dashboard.unmount m)) = []).
  { unfold Dashboard.unmount. rewrite Hint. cbn [Dashboard.clock Timers.clearInterval Timers.timers].
    rewrite Htm. reflexivity. }
  split; [exact Hclear|].
  destruct (idle k _ Hclear) as [_ ->].
  unfold Dashboard.unmount. rewrite Hint. reflexivity.
Qed.

(** ** Routes and navigation *)

Lemma upper_slash (c : ascii) : upper c = "/"%char -> c = "/"%char.
Proof. destruct c as [[] [] [] [] [] [] [] []]; intros H; first [reflexivity|discriminate H]. Qed.

Lemma allSlashes_spec (s : string) :
  App.allSlashes s = true <-> exists n, toUpperCase s = slashes n.
Proof.
  induction s as [|c s IH]; cbn [App.allSlashes toUpperCase].
  - split; [exists 0; reflexivity|reflexivity].
  - rewrite andb_true_iff, IH, Ascii.eqb_eq. split.
    + intros [-> [n Hn]]. exists (S n). cbn [slashes]. rewrite Hn. reflexivity.
    + intros [[|n] Hn]; [discriminate Hn|]. cbn [slashes] in Hn. injection Hn as Hc Hs.
      split; [apply upper_slash, Hc|exists n; exact Hs].
Qed.

Lemma matchStatic_spec (pattern s : string) :
  App.matchStatic pattern s = true
  <-> exists n, toUpperCase s = toUpperCase pattern +:+ slashes n.
Proof.
  revert s. induction pattern as [|a pattern IH]; intros s.
  - cbn [App.matchStatic toUpperCase]. apply allSlashes_spec.
  - destruct s as [|b s]; cbn [App.matchStatic toUpperCase].
    + split; [discriminate|]. intros [n Hn]. discriminate Hn.
    + unfold App.sameLetter. rewrite andb_true_iff, IH, Ascii.eqb_eq. split.
      * intros [Hab [n Hn]]. exists n.
        change (String (upper b) (toUpperCase s)
                = String (upper a) (toUpperCase pattern +:+ slashes n)).
        rewrite Hab, Hn. reflexivity.
      * intros [n Hn].
        change (String (upper b) (toUpperCase s)
                = String (upper a) (toUpperCase pattern +:+ slashes n)) in Hn.
        injection Hn as Hc Hs. split; [symmetry; exact Hc|exists n; exact Hs].
Qed.

(** A feature route matches the pathnames that are its path up to
    letter case and slashes at the end. *)
Lemma matches_feature (path pathname : string) :
  In path (map fst App.featureRoutes) ->
  App.matches path pathname = true <-> sameLocation path pathname.
Proof.
  intros Hin. cbn in Hin.
  repeat (destruct Hin as [<-|Hin]; [apply matchStatic_spec|]). contradiction.
Qed.

(** No pathname is two feature paths at once. *)
Lemma sameLocation_unique (path1 path2 pathname : string) :
  In path1 (map fst App.featureRoutes) -> In path2 (map fst App.featureRoutes) ->
  sameLocation path1 pathname -> sameLocation path2 pathname -> path1 = path2.
Proof.
  intros H1 H2 [n Hn] [k Hk]. rewrite Hn in Hk. clear Hn. cbn in H1, H2.
  repeat (destruct H1 as [<-|H1]; [|]); try contradiction;
    repeat (destruct H2 as [<-|H2]; [|]); try contradiction;
    try reflexivity; exfalso; vm_compute in Hk;
    first [ discriminate Hk
          | destruct n; discriminate Hk
          | destruct k; discriminate Hk ].
Qed.

Lemma render_nonEmpty (pathname : string) :
  pathname <> "" ->
  App.render pathname
  = option_map snd (find (fun r => App.matches (fst r) pathname) App.routes).
Proof.
  intros H. unfold App.render, nonEmpty.
  destruct (String.eqb_spec pathname ""); [contradiction|reflexivity].
Qed.

Lemma sameLocation_nonEmpty (path pathname : string) :
  In path (map fst App.featureRoutes) -> sameLocation path pathname -> pathname <> "".
Proof.
  intros Hin [n Hn] ->. cbn in Hin.
  repeat (destruct Hin as [<-|Hin]; [discriminate Hn|]). contradiction.
Qed.

Lemma render_feature (path pathname : string) (page : App.Element) :
  In (path, page) App.featureRoutes -> sameLocation path pathname ->
  App.render pathname = Some page.
Proof.
  intros Hin Hsame.
  assert (Hpath : In path (map fst App.featureRoutes)) by (apply (in_map fst _ _ Hin)).
  rewrite render_nonEmpty by (eapply sameLocation_nonEmpty; eassumption).
  assert (Hother : forall q, In q (map fst App.featureRoutes) ->
                     App.matches q pathname = true -> q = path).
  { intros q Hq Hm. apply (sameLocation_unique q path pathname Hq Hpath); [|exact Hsame].
    apply matches_feature; assumption. }
  apply (matches_feature _ pathname) in Hpath as Hm. apply Hm in Hsame as Hyes.
  unfold App.routes. cbn [find fst].
  cbn in Hin.
  repeat match goal with
         | |- context [App.matches ?q pathname] =>
             lazymatch q with
             | "*" => fail
             | _ =>
               destruct (App.matches q pathname) eqn:?E;
               [ match goal with
                 | Hq : App.matches q pathname = true |- _ =>
                     specialize (Hother q ltac:(cbn; tauto) Hq)
                 end; subst path;
                 cbn [option_map snd];
                 repeat (destruct Hin as [Hin|Hin];
                         [first [injection Hin as <-; reflexivity | discriminate Hin]|]);
                 contradiction
               | ]
             end
         end.
  exfalso. cbn in Hpath.
  repeat (destruct Hpath as [<-|Hpath]; [congruence|]). contradiction.
Qed.

Lemma render_notFound (pathname : string) :
  plainPathname pathname = true ->
  (forall path, In path (map fst App.featureRoutes) -> ~ sameLocation path pathname) ->
  App.render pathname = Some App.NotFound.
Proof.
  intros Hplain Hnone. unfold plainPathname in Hplain.
  apply andb_prop in Hplain as [Hslash Hchars].
  destruct pathname as [|c rest]; [discriminate Hslash|].
  rewrite render_nonEmpty by discriminate.
  unfold App.routes. cbn [find fst].
  repeat match goal with
         | |- context [App.matches ?q (String c rest)] =>
             lazymatch q with
             | "*" => fail
             | _ =>
               destruct (App.matches q (String c rest)) eqn:?E;
               [ exfalso; apply (Hnone q); [cbn; tauto|];
                 apply matches_feature; [cbn; tauto|assumption]
               | ]
             end
         end.
  assert (Hsplat : App.matches "*" (String c rest) = true).
  { unfold App.matches. cbn [String.eqb]. 
    change (("*" =? "*")%string) with true. cbv iota. unfold App.matchSplat.
    cbn [String.prefix] in Hslash.
    destruct (ascii_dec "/" c) as [<-|]; [|discriminate Hslash].
    cbn [list_ascii_of_string forallb] in Hchars. apply andb_prop in Hchars as [_ Hrest].
    cbn. apply forallb_forall. intros x Hx.
    rewrite forallb_forall in Hrest. specialize (Hrest x Hx).
    apply andb_prop in Hrest as [_ Hlt]. exact Hlt. }
  rewrite Hsplat. reflexivity.
Qed.

(** C7 (as stated, refuted): a path other than the six can render a
    feature page.  The router compares without regard to letter case and
    to slashes at the end, so /chat/ and /CHAT render Chat and /Files
    renders FileManager, not NotFound. *)
Lemma trailing_slash_renders_chat :
  ~ In "/chat/" (map fst App.featureRoutes)
  /\ App.render "/chat/" = Some App.Chat
  /\ App.render "/CHAT" = Some App.Chat
  /\ App.render "/Files" = Some App.FileManager.
Proof.
  split; [|repeat split; reflexivity].
  cbn. intros H. repeat (destruct H as [H|H]; [discriminate H|]). contradiction.
Qed.

(** C7 (amended): the route table maps exactly six feature pages to
    paths: Dashboard at /, Chat at /chat, SystemInfo at /system,
    FileManager at /files, VoiceControl at /voice and Settings at
    /settings.  A pathname renders the page of the path it is equal to up
    to the case of its letters and slashes at its end; every other
    pathname (one that starts with a slash and holds no percent-escape
    and no line break) renders NotFound.  The sidebar lists exactly the
    six paths, one entry for each page. *)
Theorem six_routes :
  App.featureRoutes =
    [ ("/", App.Dashboard); ("/chat", App.Chat); ("/system", App.SystemInfo);
      ("/files", App.FileManager); ("/voice", App.VoiceControl);
      ("/settings", App.Settings) ]
  /\ (forall path page pathname,
        In (path, page) App.featureRoutes -> sameLocation path pathname ->
        App.render pathname = Some page)
  /\ (forall pathname,
        plainPathname pathname = true ->
        (forall path, In path (map fst App.featureRoutes) -> ~ sameLocation path pathname) ->
        App.render pathname = Some App.NotFound)
  /\ map Layout.path Layout.navigation = map fst App.featureRoutes
  /\ List.NoDup (map Layout.path Layout.navigation)
  /\ List.NoDup (map snd App.featureRoutes).
Proof.
  split; [reflexivity|]. split; [intros path page pathname; apply render_feature|]. split; [exact render_notFound|].
  split; [reflexivity|].
  split; cbn;
    repeat (constructor;
            [cbn; intros H; repeat (destruct H as [H|H]; [discriminate H|]); contradiction|]);
    constructor.
Qed.

Lemma six_routes_witness :
  App.render "/Chat//" = Some App.Chat /\ App.render "/chat/history" = Some App.NotFound.
Proof.
  destruct six_routes as (_ & Hfeature & Hother & _). split.
  - apply (Hfeature "/chat"); [cbn; tauto|]. exists 2. reflexivity.
  - apply Hother; [reflexivity|]. intros path Hin [n Hn]. cbn in Hin.
    repeat (destruct Hin as [<-|Hin];
            [exfalso; vm_compute in Hn;
             repeat first [discriminate Hn | destruct n as [|n]; vm_compute in Hn]|]).
    contradiction.
Defined.

(* ================================================================== *)
(** * Further properties of the code *)
(* ================================================================== *)

(** ** Escaping and URLs *)

(** X1: a path argument is one segment of the URL handed to axios, and
    the browser's URL resolution keeps it unless it is a dot segment.
    For the nine file methods and openApplication the URL is
    /api/v1/files/<escaped path>/<operation>, respectively
    /api/v1/system/applications/<escaped name>/open; the escaped argument
    holds only unreserved characters and percent signs, so a slash or a
    query character in the argument stays inside the segment.  Dots are
    not escaped: the argument [.] drops out of the path requested, and
    the argument [..] drops out together with the segment before it, so
    that getFileInfo with the path [..] requests /api/v1/info.  With any
    other argument the path requested is the URL as written. *)
Theorem path_argument_is_one_segment (m : ApiService.Method) (p : string) :
  pathArgument m = Some p ->
  let u := ApiService.c_url (ApiService.call m) in
  segments u = pathArea m ++ [encodeURIComponent p; pathOperation m]
  /\ forallb (fun x => isUnreserved x || (x =? "%")%char)
             (list_ascii_of_string (encodeURIComponent p)) = true
  /\ (p <> "." -> p <> ".." -> Url.resolve u = u)
  /\ (p = "." -> segments (Url.resolve u) = pathArea m ++ [pathOperation m])
  /\ (p = ".." -> segments (Url.resolve u) = removelast (pathArea m) ++ [pathOperation m]).
Proof.
  intros H.
  destruct m; try discriminate H; injection H as ->;
    cbn [ApiService.call ApiService.c_url ApiService.GET ApiService.POST ApiService.DELETE
         pathArea pathOperation];
    (split; [rewrite ?segments_filesUrl, ?segments_applicationUrl; reflexivity|]);
    (split; [apply encode_alphabet|]);
    (split; [|split; intros ->; reflexivity]);
    intros Hdot Hdots;
    rewrite ?resolve_filesUrl, ?resolve_applicationUrl by reflexivity;
    (destruct (Url.isDoubleDot (encodeURIComponent p)) eqn:Hdd;
     [apply encode_double_dot in Hdd; contradiction|]);
    (destruct (Url.isSingleDot (encodeURIComponent p)) eqn:Hsd;
     [apply encode_single_dot in Hsd; contradiction|]);
    reflexivity.
Qed.

Lemma path_argument_is_one_segment_witness :
  segments (ApiService.c_url (ApiService.call (ApiService.readFile "My Docs/a.txt" None None)))
    = [""; "api"; "v1"; "files"; "My%20Docs%2Fa.txt"; "read"]
  /\ Url.resolve (ApiService.c_url
                    (ApiService.call (ApiService.readFile "My Docs/a.txt" None None)))
     = "/api/v1/files/My%20Docs%2Fa.txt/read".
Proof.
  pose proof (path_argument_is_one_segment (ApiService.readFile "My Docs/a.txt" None None)
                "My Docs/a.txt" eq_refl) as (Hsegments & _ & Hresolve & _).
  split; [exact Hsegments|].
  apply Hresolve; discriminate.
Defined.

(** X2: no two endpoints collide.  Two calls with the same HTTP method
    and the same URL are calls of the same client method with the same
    path argument; in particular a file whose name is that of a fixed
    endpoint (search, status, cleanup, ...) is never mistaken for it, and
    distinct paths never share a URL. *)
Theorem endpoints_do_not_collide (m1 m2 : ApiService.Method) :
  ApiService.c_method (ApiService.call m1) = ApiService.c_method (ApiService.call m2) ->
  ApiService.c_url (ApiService.call m1) = ApiService.c_url (ApiService.call m2) ->
  methodName m1 = methodName m2 /\ pathArgument m1 = pathArgument m2.
Proof.
  intros Hm Hu.
  destruct m1, m2;
    cbn [ApiService.call ApiService.c_method ApiService.c_url ApiService.GET ApiService.POST
         ApiService.DELETE methodName pathArgument] in *;
    try discriminate Hm;
    try (split; reflexivity);
    apply (f_equal segments) in Hu;
    rewrite ?segments_filesUrl, ?segments_applicationUrl in Hu;
    first [ split; [reflexivity|]; f_equal; apply encode_inj; congruence
          | exfalso; forget_escapes Hu; vm_compute in Hu; discriminate Hu ].
Qed.

Lemma endpoints_do_not_collide_witness :
  methodName (ApiService.deleteFile "status" None)
    = methodName (ApiService.deleteFile "status" (Some true))
  /\ pathArgument (ApiService.deleteFile "status" None)
     = pathArgument (ApiService.deleteFile "status" (Some true)).
Proof.
  apply endpoints_do_not_collide; reflexivity.
Defined.

(** X3: the client only uses GET, POST and DELETE; a POST never carries
    query parameters, and a GET or DELETE never carries a body. *)
Theorem no_body_with_query (m : ApiService.Method) :
  let c := ApiService.call m in
  In (ApiService.c_method c) ["GET"; "POST"; "DELETE"]
  /\ (ApiService.c_method c = "POST" -> ApiService.c_params c = Undefined)
  /\ (ApiService.c_method c <> "POST" -> ApiService.c_data c = Undefined).
Proof.
  destruct m; cbn; repeat split; auto; try discriminate; intros H; try reflexivity; try congruence.
Qed.

(** X4: every call writes exactly two console entries after what was
    there: first "API Request: <METHOD> <url>", then, for a 2xx reply,
    "API Response: <status> <url>", and otherwise an "API Response Error:"
    entry holding the error body when it is truthy and the error message
    when it is not (or when no reply came).  The request body, headers
    and parameters are never logged. *)
Theorem calls_log_two_lines (vite : option string) (net : Network)
    (m : ApiService.Method) (w : World) :
  let c := ApiService.call m in
  console (fst (ApiService.invoke (apiService vite) net m w))
  = console w ++
    [ console_log ("API Request: " +:+ ApiService.c_method c +:+ " " +:+ ApiService.c_url c);
      match net (length (sent w)) (wireConfig vite m) with
      | HttpReply st body =>
          if validateStatus st
          then console_log ("API Response: " +:+ toString st +:+ " " +:+ ApiService.c_url c)
          else console_error "API Response Error:"
                 (ArgValue (if truthy body then body
                            else Str ("Request failed with status code " +:+ toString st)))
      | NoReply msg => console_error "API Response Error:" (ArgValue (Str msg))
      end ].
Proof.
  intros c. subst c.
  unfold ApiService.invoke, ApiService.request, try_catch, then_, Axios.request,
    Axios.bind, chain, apiService, ApiService.constructor, Axios.create,
    useRequest, useResponse;
    cbn [ApiService.client response_interceptors request_interceptors defaults rev app
         fold_left onFulfilled onRejected].
  unfold then_, ret, ApiService.request_onFulfilled, ApiService.response_onFulfilled,
    ApiService.response_onRejected, Axios.bind, then_, log, dispatchRequest, throw, ret;
    cbn [console sent fst snd].
  change (mergeConfig _ (ApiService.requestConfig _ _ _ _)) with (wireConfig vite m).
  unfold settle.
  destruct (net _ _) as [st body|msg].
  - destruct (validateStatus st); cbn [console sent fst snd status r_config url wireConfig
                                        option_map interpolate method].
    + rewrite method_is_upper, <- app_assoc. reflexivity.
    + unfold ApiService.request_catch; cbn [response_data err_data Js.message].
      unfold Js.or. destruct (truthy body); cbn [fst console];
        rewrite method_is_upper, <- app_assoc; reflexivity.
  - unfold ApiService.request_catch; cbn [response_data truthy Js.message fst console wireConfig
                                           option_map interpolate method url Js.or].
    rewrite method_is_upper, <- app_assoc. reflexivity.
Qed.

(** X5: every request carries the defaults of the instance and of
    axios: a 30000 ms timeout, the base URL, which is VITE_API_URL when
    that is set and not empty and http://localhost:5000 otherwise, so it
    is never empty, and the headers Accept: application/json,
    text/plain, */* and Content-Type: application/json.  On the wire
    Content-Type accompanies a body only: it is sent when the method
    passes data and removed when it passes none (every GET and DELETE,
    and the POSTs without data). *)
Theorem requests_carry_defaults (vite : option string) (net : Network)
    (m : ApiService.Method) (w : World) :
  exists cfg,
    sent (fst (ApiService.invoke (apiService vite) net m w)) = sent w ++ [cfg]
    /\ timeout cfg = Some 30000%Z
    /\ baseURL cfg = Some (ApiService.apiUrl vite)
    /\ header "Accept" (headers cfg) = Some "application/json, text/plain, */*"
    /\ header "Content-Type" (headers cfg) = Some "application/json"
    /\ header "Accept" (wireHeaders cfg) = Some "application/json, text/plain, */*"
    /\ header "Content-Type" (wireHeaders cfg)
       = match ApiService.c_data (ApiService.call m) with
         | Undefined => None
         | _ => Some "application/json"
         end
    /\ ApiService.apiUrl vite <> ""
    /\ (forall u, vite = Some u -> u <> "" -> ApiService.apiUrl vite = u)
    /\ (vite = None \/ vite = Some "" -> ApiService.apiUrl vite = "http://localhost:5000").
Proof.
  destruct (invoke_run vite net m w) as (e1 & e2 & H).
  exists (wireConfig vite m). rewrite H.
  unfold wireHeaders. cbn [fst sent wireConfig timeout headers baseURL data].
  repeat (split; [reflexivity|]).
  split; [destruct (ApiService.c_data (ApiService.call m)); reflexivity|].
  split; [destruct (ApiService.c_data (ApiService.call m)); reflexivity|].
  repeat split.
  - unfold ApiService.apiUrl, nonEmpty. destruct vite as [u|]; [|discriminate].
    destruct (String.eqb_spec u ""); cbn; [discriminate|assumption].
  - intros u -> Hu. unfold ApiService.apiUrl, nonEmpty.
    destruct (String.eqb_spec u ""); [contradiction|reflexivity].
  - intros [-> | ->]; reflexivity.
Qed.

Example openFile_sends_no_content_type :
  map (fun cfg => (transformRequest (data cfg), header "Content-Type" (wireHeaders cfg)))
      (sent (fst (ApiService.invoke (apiService None) (always (NoReply "Network Error"))
                    (ApiService.openFile "a.txt") quiet)))
  = [(NoPayload, None)].
Proof. reflexivity. Qed.

(** ** More on the Chat page *)

Lemma trimEnd_blank (t : string) : trimEnd t = "" -> blank t.
Proof.
  unfold blank. induction t as [|c t IH]; cbn [trimEnd list_ascii_of_string]; intros H;
    [constructor|].
  destruct (trimEnd t) eqn:Ht; [|discriminate].
  destruct (isWhiteSpace c) eqn:Hc; [|discriminate].
  constructor; auto.
Qed.

Lemma trimStart_blank (s : string) : blank (trimStart s) -> blank s.
Proof.
  unfold blank. induction s as [|c s IH]; cbn [trimStart list_ascii_of_string]; intros H;
    [constructor|].
  destruct (isWhiteSpace c) eqn:Hc; [constructor; auto|exact H].
Qed.

Lemma trim_empty_iff (s : string) : trim s = "" <-> blank s.
Proof.
  split; [|apply trim_whitespace].
  intros H. apply trimStart_blank, trimEnd_blank, H.
Qed.

Lemma blocked_iff (p : Chat.Page) :
  Chat.blocked p = true <-> blank (Chat.input p) \/ Chat.isLoading p = true.
Proof.
  split; [|apply blank_blocked].
  unfold Chat.blocked, nonEmpty. rewrite negb_involutive. intros H.
  apply orb_prop in H as [H|H]; [left|right; exact H].
  apply trim_empty_iff. apply String.eqb_eq, H.
Qed.

Lemma start_noop_iff (now : Z) (p : Chat.Page) :
  Chat.handleSendMessage_start now p = p <-> Chat.blocked p = true.
Proof.
  unfold Chat.handleSendMessage_start.
  destruct (Chat.blocked p) eqn:Hb; split; auto; intros H; [|discriminate].
  exfalso. apply (f_equal Chat.isLoading) in H. cbn in H.
  unfold Chat.blocked in Hb. rewrite <- H in Hb. rewrite orb_true_r in Hb. discriminate.
Qed.

(** X6: the guard of handleSendMessage is exact: the handler leaves the
    page as it is if and only if the input is blank or a command is in
    flight.  With a visible character in the input and no command in
    flight, it always acts. *)
Theorem send_acts_iff_not_blank_and_idle (now : Z) (p : Chat.Page) :
  Chat.handleSendMessage_start now p = p
  <-> blank (Chat.input p) \/ Chat.isLoading p = true.
Proof. rewrite start_noop_iff. apply blocked_iff. Qed.

(** X7: handleKeyPress prevents the default action exactly for Enter
    without Shift (even when the send is then blocked), and a key press
    changes the page exactly when it is Enter without Shift, the input is
    not blank and no command is in flight. *)
Theorem only_plain_enter_sends (e : ChatSession.KeyboardEvent) (now : Z) (p : Chat.Page) :
  (fst (ChatSession.handleKeyPress e now p) = true
   <-> ChatSession.key e = "Enter" /\ ChatSession.shiftKey e = false)
  /\ (snd (ChatSession.handleKeyPress e now p) <> p
      <-> ChatSession.key e = "Enter" /\ ChatSession.shiftKey e = false
          /\ ~ blank (Chat.input p) /\ Chat.isLoading p = false).
Proof.
  unfold ChatSession.handleKeyPress.
  destruct (String.eqb_spec (ChatSession.key e) "Enter") as [Hk|Hk];
    [destruct (ChatSession.shiftKey e) eqn:Hs|]; cbn [andb negb fst snd].
  - split; split.
    + discriminate.
    + intros [_ Hf]. discriminate.
    + intros H. exfalso. apply H. reflexivity.
    + intros (_ & Hf & _). discriminate.
  - split; [tauto|]. rewrite start_noop_iff.
    split.
    + intros H. repeat split; auto.
      * intros Hb. apply H, blocked_iff. left. exact Hb.
      * destruct (Chat.isLoading p) eqn:Hl; [|reflexivity].
        exfalso. apply H, blocked_iff. right. exact Hl.
    + intros (_ & _ & Hb & Hl) H. apply blocked_iff in H as [H|H];
        [contradiction|congruence].
  - split; split.
    + discriminate.
    + intros [Hf _]. contradiction.
    + intros H. exfalso. apply H. reflexivity.
    + intros (Hf & _). contradiction.
Qed.

Lemma trimEnd_idem (t : string) : trimEnd (trimEnd t) = trimEnd t.
Proof.
  induction t as [|c t IH]; [reflexivity|].
  cbn [trimEnd]. destruct (trimEnd t) as [|c' t'] eqn:Ht.
  - destruct (isWhiteSpace c) eqn:Hc; [reflexivity|]. cbn [trimEnd]. rewrite Hc. reflexivity.
  - cbn [trimEnd] in *. rewrite IH. reflexivity.
Qed.

Lemma trimStart_head (s : string) :
  trimStart s = "" \/ exists c r, trimStart s = String c r /\ isWhiteSpace c = false.
Proof.
  induction s as [|c s IH]; [left; reflexivity|].
  cbn [trimStart]. destruct (isWhiteSpace c) eqn:Hc; [exact IH|right; eauto].
Qed.

Lemma trim_idem (s : string) : trim (trim s) = trim s.
Proof.
  unfold trim. destruct (trimStart_head s) as [->|(c & r & -> & Hc)]; [reflexivity|].
  assert (H : exists r', trimEnd (String c r) = String c r').
  { cbn [trimEnd]. destruct (trimEnd r); [rewrite Hc|]; eauto. }
  destruct H as (r' & H). rewrite H. cbn [trimStart]. rewrite Hc, <- H. apply trimEnd_idem.
Qed.

Lemma invariant_initial (now : Z) : ChatInvariant (Chat.initial now).
Proof.
  split; cbn; auto. exists 0. split; reflexivity.
Qed.

Lemma userContents_snoc (ms : list Chat.ChatMessage) (m : Chat.ChatMessage) :
  map Chat.content (List.filter isUser (ms ++ [m]))
  = map Chat.content (List.filter isUser ms) ++ (if isUser m then [Chat.content m] else []).
Proof.
  rewrite List.filter_app, map_app. cbn [List.filter]. destruct (isUser m); reflexivity.
Qed.

Lemma invariant_step (p : Chat.Page) (e : Chat.Event) :
  ChatInvariant p -> ChatInvariant (Chat.step p e).
Proof.
  intros [Ha (k & Hk & Hlen) Hc Ht].
  destruct e as [s|now|now r|]; cbn [Chat.step].
  - split; cbn; eauto.
  - unfold Chat.handleSendMessage_start. destruct (Chat.blocked p) eqn:Hb;
      [split; eauto|].
    unfold Chat.blocked in Hb. apply orb_false_elim in Hb as [Hin Hl].
    rewrite Hl in *.
    split; unfold userContents in *;
      cbn [Chat.awaiting Chat.isLoading Chat.messages Chat.calls].
    + rewrite Ha. reflexivity.
    + exists k. rewrite map_app, Hk, length_app, Hlen, Ha. cbn. unfold conversation.
      rewrite app_nil_r. split; [reflexivity|lia].
    + rewrite userContents_snoc, map_app, <- Hc. reflexivity.
    + rewrite userContents_snoc. apply Forall_app. split; [exact Ht|].
      cbn. constructor; [|constructor].
      exists (trim (Chat.input p)). split; [reflexivity|]. split; [apply trim_idem|].
      intros E. unfold nonEmpty in Hin. rewrite E in Hin. discriminate.
  - destruct (Chat.awaiting p) as [|n] eqn:Hn; [split; eauto; rewrite ?Hn; eauto|].
    destruct (Chat.isLoading p) eqn:Hl; [|discriminate].
    destruct (resume_appends now r p) as (a & Hm & Hty).
    split; unfold userContents in *; rewrite ?Hm;
      cbn [Chat.handleSendMessage_resume Chat.awaiting Chat.isLoading Chat.calls].
    + rewrite Hn. injection Ha as ->. reflexivity.
    + exists (S k). rewrite map_app, Hk, Hlen, Hn. cbn [map]. rewrite Hty.
      unfold conversation. cbn [exchanges]. rewrite app_nil_r, <- app_assoc.
      injection Ha as ->. split; [reflexivity|cbn; lia].
    + rewrite userContents_snoc. unfold isUser. rewrite Hty, app_nil_r. exact Hc.
    + rewrite userContents_snoc. unfold isUser. rewrite Hty, app_nil_r. exact Ht.
  - split; cbn; eauto.
Qed.

Lemma invariant_run (es : list Chat.Event) (p : Chat.Page) :
  ChatInvariant p -> ChatInvariant (Chat.run es p).
Proof.
  revert p. induction es as [|e es IH]; intros p H; [exact H|].
  cbn [Chat.run fold_left]. apply IH, invariant_step, H.
Qed.

(** X8: whatever the user does and however requests settle, at most
    one command is in flight, and isLoading is true exactly while one
    is. *)
Theorem one_command_in_flight (es : list Chat.Event) (now : Z) :
  let p := Chat.run es (Chat.initial now) in
  Chat.awaiting p <= 1 /\ (Chat.isLoading p = true <-> Chat.awaiting p = 1).
Proof.
  intros p. destruct (invariant_run es _ (invariant_initial now)) as [Ha _ _ _].
  fold p in Ha. rewrite Ha. destruct (Chat.isLoading p); split; try lia; split; auto; discriminate.
Qed.

(** X9: in every reachable state the message list is the greeting
    followed by strictly alternating user and assistant messages, ending
    in an unanswered user message exactly while isLoading; and the number
    of executeCommand calls made equals the number of user messages. *)
Theorem conversation_alternates (es : list Chat.Event) (now : Z) :
  let p := Chat.run es (Chat.initial now) in
  exists k,
    map Chat.msg_type (Chat.messages p) = conversation k (Chat.isLoading p)
    /\ length (Chat.calls p) = k + (if Chat.isLoading p then 1 else 0).
Proof.
  intros p. destruct (invariant_run es _ (invariant_initial now)) as [Ha (k & Hk & Hl) _ _].
  fold p in Ha, Hk, Hl. exists k. rewrite <- Ha. auto.
Qed.

(** X10: the calls made to the API client are exactly one
    executeCommand per user message, in the order of the messages, each
    with that message's content as command and 'user' as user_id. *)
Theorem every_user_message_is_sent_once (es : list Chat.Event) (now : Z) :
  let p := Chat.run es (Chat.initial now) in
  Chat.calls p
  = map (fun c => ApiService.executeCommand (Obj [("command", c); ("user_id", Str "user")]))
        (userContents p).
Proof.
  intros p. destruct (invariant_run es _ (invariant_initial now)) as [_ _ Hc _]. exact Hc.
Qed.

(** X11: every user message, hence every command sent, is a string
    that is not blank and has no white space at either end (trimming it
    again changes nothing). *)
Theorem commands_are_trimmed (es : list Chat.Event) (now : Z) :
  let p := Chat.run es (Chat.initial now) in
  Forall (fun v => exists c, v = Str c /\ trim c = c /\ c <> "" /\ ~ blank c) (userContents p).
Proof.
  intros p. destruct (invariant_run es _ (invariant_initial now)) as [_ _ _ Ht].
  fold p in Ht. eapply Forall_impl; [exact Ht|].
  intros v (c & -> & Hc & Hne). exists c. repeat split; auto.
  intros Hb. apply trim_empty_iff in Hb. congruence.
Qed.

(** X12: when the result has a truthy success and truthy data, the
    assistant message shows data.response, or 'Command executed
    successfully' when that is missing or empty, and carries data.action
    and data.data; its id is the settle time plus one. *)
Theorem successful_command_answer (now : Z) (response : Value) :
  truthy (get_opt response "success") = true ->
  truthy (get_opt response "data") = true ->
  let data := get_opt response "data" in
  Chat.answer now response
  = Fulfilled {| Chat.msg_id := toString (now + 1);
                 Chat.msg_type := Chat.assistant;
                 Chat.content := if truthy (get_opt data "response")
                                 then get_opt data "response"
                                 else Str "Command executed successfully";
                 Chat.timestamp := now;
                 Chat.action := get_opt data "action";
                 Chat.msg_data := get_opt data "data" |}.
Proof.
  intros Hs Hd data. subst data.
  destruct response as [| |b|n|s|xs|ps]; try discriminate.
  cbn [get_opt] in *. unfold Chat.answer, Js.and. cbn [get Js.bind]. rewrite Hs, Hd.
  destruct (lookup_prop "data" ps); try discriminate; reflexivity.
Qed.

Lemma successful_command_answer_witness :
  Chat.answer 1250 completedCommand
  = Fulfilled {| Chat.msg_id := toString (1250 + 1);
                 Chat.msg_type := Chat.assistant;
                 Chat.content := Str "Opening Chrome";
                 Chat.timestamp := 1250;
                 Chat.action := Str "open_app";
                 Chat.msg_data := Undefined |}.
Proof.
  apply (successful_command_answer 1250 completedCommand); reflexivity.
Defined.

Lemma answer_id (now : Z) (response : Value) (m : Chat.ChatMessage) :
  Chat.answer now response = Fulfilled m -> Chat.msg_id m = toString (now + 1).
Proof.
  unfold Chat.answer.
  destruct response as [| |b|n|s|xs|ps]; cbn [get Js.bind]; try discriminate;
    try (intros [= <-]; reflexivity).
  destruct (truthy (Js.and _ _)); [|intros [= <-]; reflexivity].
  destruct (lookup_prop "data" ps); cbn [get Js.bind]; try discriminate;
    intros [= <-]; reflexivity.
Qed.

Lemma resume_id (now : Z) (r : Settled Value) (p : Chat.Page) :
  exists a, Chat.messages (Chat.handleSendMessage_resume now r p) = Chat.messages p ++ [a]
            /\ Chat.msg_type a = Chat.assistant
            /\ Chat.msg_id a = toString (now + 1).
Proof.
  unfold Chat.handleSendMessage_resume. cbn [Chat.messages].
  destruct (Js.bind r (Chat.answer now)) as [m|e] eqn:H.
  - exists m. split; [reflexivity|].
    destruct r as [v|e']; [|discriminate].
    split; [exact (answer_assistant _ _ _ H)|exact (answer_id _ _ _ H)].
  - eexists. repeat split; reflexivity.
Qed.

Lemma toString_inj (a b : Z) : toString a = toString b -> a = b.
Proof.
  unfold toString. intros H. apply DecimalZ.to_int_inj.
  assert (Hn : forall z, Z.to_int z <> Decimal.Pos Decimal.Nil
                         /\ Z.to_int z <> Decimal.Neg Decimal.Nil).
  { intros [|q|q]; cbn; split; try discriminate; intros [= E];
      exact (DecimalPos.Unsigned.to_uint_nonnil q E). }
  destruct (Hn a) as [Ha1 Ha2], (Hn b) as [Hb1 Hb2].
  pose proof (NilZero.isi _ Ha1 Ha2) as Ea. pose proof (NilZero.isi _ Hb1 Hb2) as Eb.
  rewrite H in Ea. congruence.
Qed.

(** X13: within one send the user message and the assistant message get
    different ids (Date.now() and Date.now() + 1), provided the clock did
    not go backwards between the send and its settlement. *)
Theorem ids_differ_within_a_send (now now' : Z) (r : Settled Value) (p : Chat.Page) :
  Chat.blocked p = false -> (now <= now')%Z ->
  exists a,
    Chat.messages (Chat.handleSendMessage now now' r p)
      = Chat.messages p ++ [Chat.userMessage now p; a]
    /\ Chat.msg_id (Chat.userMessage now p) = toString now
    /\ Chat.msg_id a = toString (now' + 1)
    /\ Chat.msg_id (Chat.userMessage now p) <> Chat.msg_id a.
Proof.
  intros Hb Hle. unfold Chat.handleSendMessage. rewrite Hb.
  destruct (resume_id now' r (Chat.handleSendMessage_start now p)) as (a & Hm & _ & Hid).
  exists a. rewrite Hm. unfold Chat.handleSendMessage_start. rewrite Hb.
  cbn [Chat.messages]. rewrite <- app_assoc. repeat split; auto.
  rewrite Hid. cbn [Chat.userMessage Chat.msg_id]. intros E. apply toString_inj in E. lia.
Qed.

Lemma ids_differ_within_a_send_witness :
  exists a,
    Chat.messages (Chat.handleSendMessage 1000 1250 (Fulfilled completedCommand)
                     (Chat.setInput "open chrome" (Chat.initial 0)))
      = Chat.messages (Chat.setInput "open chrome" (Chat.initial 0))
          ++ [Chat.userMessage 1000 (Chat.setInput "open chrome" (Chat.initial 0)); a]
    /\ Chat.msg_id (Chat.userMessage 1000 (Chat.setInput "open chrome" (Chat.initial 0)))
       = toString 1000
    /\ Chat.msg_id a = toString (1250 + 1)
    /\ Chat.msg_id (Chat.userMessage 1000 (Chat.setInput "open chrome" (Chat.initial 0)))
       <> Chat.msg_id a.
Proof.
  apply ids_differ_within_a_send; [reflexivity|lia].
Defined.

(** X14: message ids are not unique across sends: a message sent
    exactly one millisecond after an answer arrived gets the id of that
    answer, so two adjacent messages share the key used to render
    them. *)
Theorem ids_can_repeat (now now' : Z) (r : Settled Value) (s : string) (p : Chat.Page) :
  Chat.blocked p = false -> ~ blank s ->
  exists ms a u,
    Chat.messages (Chat.run [Chat.Send now; Chat.Settle now' r; Chat.Edit s;
                             Chat.Send (now' + 1)] p)
      = ms ++ [a; u]
    /\ Chat.msg_type a = Chat.assistant /\ Chat.msg_type u = Chat.user
    /\ Chat.msg_id a = Chat.msg_id u.
Proof.
  intros Hb Hs. unfold Chat.run. cbn [fold_left Chat.step].
  assert (Ha1 : Chat.awaiting (Chat.handleSendMessage_start now p) = S (Chat.awaiting p)).
  { unfold Chat.handleSendMessage_start. rewrite Hb. reflexivity. }
  rewrite Ha1. cbv beta iota.
  destruct (resume_id now' r (Chat.handleSendMessage_start now p)) as (a & Hm & Hty & Hid).
  set (p2 := Chat.handleSendMessage_resume now' r _) in *.
  assert (Hb3 : Chat.blocked (Chat.setInput s p2) = false).
  { unfold Chat.blocked. cbn. apply orb_false_intro; [|reflexivity].
    apply negb_false_iff. unfold nonEmpty. apply negb_true_iff, String.eqb_neq.
    intros E. apply Hs, trim_empty_iff, E. }
  unfold Chat.handleSendMessage_start at 1. rewrite Hb3.
  cbn [Chat.messages Chat.setInput]. rewrite Hm.
  exists (Chat.messages (Chat.handleSendMessage_start now p)), a. eexists.
  rewrite <- app_assoc. split; [reflexivity|].
  repeat split; auto.
Qed.

Lemma ids_can_repeat_witness :
  exists ms a u,
    Chat.messages (Chat.run [Chat.Send 1000; Chat.Settle 1250 (Fulfilled completedCommand);
                             Chat.Edit "again"; Chat.Send (1250 + 1)]
                            (Chat.setInput "open chrome" (Chat.initial 0)))
      = ms ++ [a; u]
    /\ Chat.msg_type a = Chat.assistant /\ Chat.msg_type u = Chat.user
    /\ Chat.msg_id a = Chat.msg_id u.
Proof.
  apply ids_can_repeat; [reflexivity|].
  unfold blank. cbn. intros H. inversion H as [|? ? Hc _]. discriminate Hc.
Defined.

(** X15: end to end, a blocked send touches neither the page nor the
    network; a send that goes through issues exactly one request, a POST
    to /api/v1/commands/execute whose body is { command: <trimmed input>,
    user_id: 'user' }. *)
Theorem chat_send_is_one_post (vite : option string) (net : Network) (now now' : Z)
    (p : Chat.Page) (w : World) :
  let result := ChatSession.handleSendMessage vite net now now' (p, w) in
  (Chat.blocked p = true -> result = (p, w))
  /\ (Chat.blocked p = false ->
        exists cfg,
          sent (snd result) = sent w ++ [cfg]
          /\ method cfg = Some "POST"
          /\ url cfg = Some "/api/v1/commands/execute"
          /\ data cfg = Obj [("command", Str (trim (Chat.input p))); ("user_id", Str "user")]
          /\ params cfg = Undefined
          /\ Chat.calls (fst result)
             = Chat.calls p ++ [ApiService.executeCommand (data cfg)]).
Proof.
  intros result. subst result. unfold ChatSession.handleSendMessage.
  split; intros Hb; rewrite Hb; [reflexivity|].
  destruct (invoke_run vite net
              (ApiService.executeCommand (ChatSession.commandRequest now p)) w)
    as (e1 & e2 & H).
  rewrite H. eexists. cbn [snd fst sent]. split; [reflexivity|].
  unfold Chat.handleSendMessage_start. rewrite Hb. repeat split; reflexivity.
Qed.

Lemma chat_send_is_one_post_witness :
  exists cfg,
    sent (snd (ChatSession.handleSendMessage None (always (NoReply "Network Error")) 1000 1250
                 (Chat.setInput " open chrome " (Chat.initial 0), quiet)))
      = sent quiet ++ [cfg]
    /\ method cfg = Some "POST"
    /\ url cfg = Some "/api/v1/commands/execute"
    /\ data cfg = Obj [("command", Str (trim (Chat.input (Chat.setInput " open chrome "
                                                             (Chat.initial 0)))));
                       ("user_id", Str "user")]
    /\ params cfg = Undefined
    /\ Chat.calls (fst (ChatSession.handleSendMessage None (always (NoReply "Network Error"))
                          1000 1250 (Chat.setInput " open chrome " (Chat.initial 0), quiet)))
       = Chat.calls (Chat.setInput " open chrome " (Chat.initial 0))
           ++ [ApiService.executeCommand (data cfg)].
Proof.
  apply (proj2 (chat_send_is_one_post None (always (NoReply "Network Error")) 1000 1250
                  (Chat.setInput " open chrome " (Chat.initial 0)) quiet)).
  reflexivity.
Defined.



(** ** Header, sidebar and pages *)

(** X17: header and sidebar compare the pathname exactly, the router
    does not.  On one of the six navigation paths exactly one sidebar
    entry is highlighted, the header shows its label and the route
    renders a feature page.  At every other pathname nothing is
    highlighted and the header reads 'JARVIS AI', whatever is rendered:
    a navigation path followed by a slash, or written in upper case,
    still renders its feature page, under that fallback header. *)
Theorem header_and_sidebar_compare_exactly :
  (forall pathname,
     In pathname (map Layout.path Layout.navigation) ->
     exists item page,
       In item Layout.navigation /\ Layout.path item = pathname
       /\ activeItems pathname = [item]
       /\ Layout.title pathname = Layout.label item
       /\ App.render pathname = Some page /\ page <> App.NotFound)
  /\ (forall pathname,
        ~ In pathname (map Layout.path Layout.navigation) ->
        activeItems pathname = [] /\ Layout.title pathname = "JARVIS AI")
  /\ (forall item pathname,
        In item Layout.navigation -> Layout.path item <> "/" ->
        pathname = Layout.path item +:+ "/" \/ pathname = toUpperCase (Layout.path item) ->
        App.render pathname = App.render (Layout.path item)
        /\ App.render pathname <> Some App.NotFound
        /\ activeItems pathname = []
        /\ Layout.title pathname = "JARVIS AI").
Proof.
  split; [|split].
  - intros pathname H. cbn in H.
    repeat (destruct H as [<-|H];
            [eexists _, _; repeat split; try reflexivity; [cbn; tauto|discriminate]|]).
    contradiction.
  - intros pathname H. cbn in H.
    unfold activeItems, Layout.title, Layout.isActive, Layout.navigation.
    cbn [List.filter find Layout.path].
    repeat match goal with
           | |- context [String.eqb pathname ?a] =>
               rewrite (proj2 (String.eqb_neq pathname a)) by (intros ->; tauto)
           end.
    split; reflexivity.
  - intros item pathname Hin Hroot Hpath. cbn in Hin.
    repeat (destruct Hin as [<-|Hin];
            [first [ exfalso; apply Hroot; reflexivity
                   | destruct Hpath as [-> | ->];
                     (split; [reflexivity|]); (split; [discriminate|]);
                     split; reflexivity ]|]).
    contradiction.
Qed.

Lemma header_and_sidebar_compare_exactly_witness :
  App.render "/files/" = App.render "/files"
  /\ App.render "/files/" <> Some App.NotFound
  /\ activeItems "/files/" = []
  /\ Layout.title "/files/" = "JARVIS AI".
Proof.
  apply (proj2 (proj2 header_and_sidebar_compare_exactly)
           {| Layout.nav_id := "files"; Layout.label := "Files";
              Layout.icon := "FolderOpen"; Layout.path := "/files" |} "/files/").
  - cbn. tauto.
  - discriminate.
  - left. reflexivity.
Defined.

(** X18: a load never leaves a page waiting: however its requests
    settle, the Dashboard's loading flag is false afterwards, and
    SystemInfo's loading and refreshing flags are false afterwards
    (refreshing having been set when the load began). *)
Theorem spinner_always_ends (r r1 r2 : Settled Value)
    (d : Dashboard.State) (s : SystemInfo.State) :
  Dashboard.loading (fst (Dashboard.loadDashboardData_resume r d)) = false
  /\ SystemInfo.refreshing (fst (SystemInfo.loadSystemInfo_start s)) = true
  /\ SystemInfo.loading (fst (SystemInfo.loadSystemInfo_resume r1 r2 s)) = false
  /\ SystemInfo.refreshing (fst (SystemInfo.loadSystemInfo_resume r1 r2 s)) = false.
Proof.
  split; [|split; [reflexivity|]].
  - unfold Dashboard.loadDashboardData_resume, Dashboard.loadDashboardData_try.
    destruct r as [[| |b|n|x|xs|ps]|e]; reflexivity.
  - unfold SystemInfo.loadSystemInfo_resume.
    destruct (SystemInfo.loadSystemInfo_try r1 r2 s). split; reflexivity.
Qed.

(** X19: the Dashboard installs its mock diagnostics after every load
    whose promise resolved to something other than null or undefined,
    also when the envelope says success false; a load that rejects (or
    resolves to null or undefined) leaves the diagnostics as they
    were. *)
Theorem diagnostics_ignore_the_success_flag (r : Settled Value) (st : Dashboard.State) :
  Dashboard.diagnostics (fst (Dashboard.loadDashboardData_resume r st))
  = match r with
    | Fulfilled Undefined | Fulfilled Null | Rejected _ => Dashboard.diagnostics st
    | Fulfilled _ => Dashboard.mockDiagnostics
    end.
Proof.
  unfold Dashboard.loadDashboardData_resume, Dashboard.loadDashboardData_try.
  destruct r as [[| |b|n|x|xs|ps]|e]; reflexivity.
Qed.

(** X20: the label of a capability tile has the length of its key,
    holds no underscore, shows a space wherever the key has an
    underscore and the key's own character everywhere else. *)
Theorem capability_labels_have_no_underscore (key : string) :
  String.length (SystemInfoPage.capabilityLabel key) = String.length key
  /\ (forall n, String.get n (SystemInfoPage.capabilityLabel key) <> Some "_"%char)
  /\ (forall n c, String.get n key = Some c -> c <> "_"%char ->
        String.get n (SystemInfoPage.capabilityLabel key) = Some c)
  /\ (forall n, String.get n key = Some "_"%char ->
        String.get n (SystemInfoPage.capabilityLabel key) = Some " "%char).
Proof.
  induction key as [|c key (IHl & IHn & IHk & IHu)]; cbn [SystemInfoPage.capabilityLabel].
  - repeat split; intros; discriminate.
  - split; [cbn; rewrite IHl; reflexivity|]. split; [|split].
    + intros [|n]; cbn [String.get]; [|apply IHn].
      destruct (Ascii.eqb_spec c "_"); [discriminate|congruence].
    + intros [|n] c'; cbn [String.get]; [|apply IHk].
      intros [= ->] Hc. destruct (Ascii.eqb_spec c' "_"); [contradiction|reflexivity].
    + intros [|n]; cbn [String.get]; [|apply IHu].
      intros [= ->]. reflexivity.
Qed.

Lemma systemInfo_resume_flags (r1 r2 : Settled Value) (s : SystemInfo.State) :
  SystemInfo.loading (fst (SystemInfo.loadSystemInfo_resume r1 r2 s)) = false
  /\ SystemInfo.refreshing (fst (SystemInfo.loadSystemInfo_resume r1 r2 s)) = false.
Proof.
  unfold SystemInfo.loadSystemInfo_resume.
  destruct (SystemInfo.loadSystemInfo_try r1 r2 s). split; reflexivity.
Qed.

Lemma concat_repeat_snoc {A} (l : list A) (k : nat) :
  List.concat (List.repeat l (S k)) = List.concat (List.repeat l k) ++ l.
Proof.
  induction k as [|k IH]; cbn [List.repeat List.concat] in *;
    [rewrite app_nil_r; reflexivity|].
  rewrite <- app_assoc. f_equal. exact IH.
Qed.

Lemma systemInfo_invariant_step (p : SystemInfoPage.Page) (e : SystemInfoPage.Event) :
  SystemInfoInvariant p -> SystemInfoInvariant (SystemInfoPage.step p e).
Proof.
  intros [Ha Hf (k & Hk)]. destruct e as [|r1 r2]; cbn [SystemInfoPage.step].
  - destruct (SystemInfoPage.refreshEnabled p) eqn:He; [|split; eauto].
    unfold SystemInfoPage.refreshEnabled in He. apply andb_prop in He as [Hl Hr].
    apply negb_true_iff in Hl, Hr. rewrite Hr in Ha.
    split; [cbn; rewrite Ha; reflexivity|cbn; rewrite Hl; discriminate|].
    exists (S k). rewrite (concat_repeat_snoc _ (S k)), <- Hk. reflexivity.
  - destruct (SystemInfoPage.awaiting p) as [|n] eqn:Hn; [split; rewrite ?Hn; eauto|].
    destruct (systemInfo_resume_flags r1 r2 (SystemInfoPage.state p)) as [Hl Hr].
    destruct (SystemInfo.refreshing (SystemInfoPage.state p)) eqn:Hrp; [|discriminate].
    split; cbn [SystemInfoPage.state SystemInfoPage.calls SystemInfoPage.awaiting].
    + rewrite Hr. congruence.
    + rewrite Hl. discriminate.
    + eauto.
Qed.

Lemma systemInfo_invariant_run (es : list SystemInfoPage.Event) (p : SystemInfoPage.Page) :
  SystemInfoInvariant p -> SystemInfoInvariant (SystemInfoPage.run es p).
Proof.
  revert p. induction es as [|e es IH]; intros p H; [exact H|].
  cbn [SystemInfoPage.run fold_left]. apply IH, systemInfo_invariant_step, H.
Qed.

Lemma systemInfo_invariant_mounted : SystemInfoInvariant SystemInfoPage.mounted.
Proof. split; cbn; eauto. exists 0. reflexivity. Qed.

(** X21: on the SystemInfo page at most one load is in flight and
    refreshing is true exactly while one is; the spinner (loading) is
    only ever shown while the first load, the one started on mount, is
    pending; and every load asks for getSystemInfo and getSystemStatus,
    in this order, nothing else. *)
Theorem systemInfo_one_load_at_a_time (es : list SystemInfoPage.Event) :
  let p := SystemInfoPage.run es SystemInfoPage.mounted in
  SystemInfoPage.awaiting p <= 1
  /\ (SystemInfo.refreshing (SystemInfoPage.state p) = true <-> SystemInfoPage.awaiting p = 1)
  /\ (SystemInfo.loading (SystemInfoPage.state p) = true ->
        SystemInfoPage.awaiting p = 1
        /\ SystemInfoPage.calls p = [ApiService.getSystemInfo; ApiService.getSystemStatus])
  /\ (exists k, SystemInfoPage.calls p
                = List.concat (List.repeat [ApiService.getSystemInfo; ApiService.getSystemStatus]
                                           (S k))).
Proof.
  intros p.
  destruct (systemInfo_invariant_run es _ systemInfo_invariant_mounted) as [Ha Hf Hk].
  fold p in Ha, Hf, Hk. rewrite Ha.
  destruct (SystemInfo.refreshing (SystemInfoPage.state p)) eqn:Hr.
  - split; [lia|]. split; [tauto|]. split; [|exact Hk].
    intros Hl. apply Hf in Hl. tauto.
  - split; [lia|]. split; [split; discriminate|]. split; [|exact Hk].
    intros Hl. apply Hf in Hl as [? _]. discriminate.
Qed.

Lemma polling_from (m : Dashboard.Mounted) (n : N) :
  Timers.timers (Dashboard.clock m) = [] ->
  let t := Timers.now (Dashboard.clock m) in
  let id := Timers.next_id (Dashboard.clock m) in
  let m' := Dashboard.advance n (Dashboard.mount m) in
  Timers.now (Dashboard.clock m') = (t + n)%N
  /\ Timers.timers (Dashboard.clock m')
     = [ {| Timers.timer_id := id; Timers.delay := 5000;
            Timers.due := (t + 5000 * (n / 5000 + 1))%N;
            Timers.callback := Dashboard.loadDashboardData |} ]
  /\ Timers.next_id (Dashboard.clock m') = S id
  /\ Dashboard.interval m' = Some id
  /\ Dashboard.invoked m' = Dashboard.invoked m ++ pollTimes t (S (N.to_nat (n / 5000))).
Proof.
  intros Hno t id. cbn zeta.
  induction n as [|n IH] using N.peano_ind.
  - change (0 / 5000)%N with 0%N. change (N.to_nat 0) with O.
    unfold Dashboard.advance, Dashboard.mount. cbn. rewrite Hno. fold t id.
    cbn [app pollTimes]. repeat split; try lia; do 2 f_equal; lia.
  - destruct IH as (Hnow & Htm & Hid & Hint & Hinv).
    unfold Dashboard.advance in *. rewrite N.iter_succ.
    set (m1 := N.iter n Dashboard.tick _) in *.
    unfold Dashboard.tick, Timers.tick.
    cbn [Dashboard.clock Dashboard.interval Dashboard.invoked Timers.now Timers.timers
         Timers.next_id].
    rewrite Hnow, Htm, Hint, Hinv, Hid. unfold Timers.rearm.
    cbn [List.filter map Timers.due Timers.callback Timers.delay Timers.timer_id].
    destruct (N.eqb_spec (t + 5000 * (n / 5000 + 1)) (N.succ (t + n))) as [Hdue|Hdue].
    + assert (Hmod : (N.succ n mod 5000 = 0)%N) by divlia.
      cbn [map N.max N.compare Pos.compare Pos.compare_cont].
      repeat split; [lia| |].
      * do 2 f_equal. divlia.
      * rewrite (pollTimes_next t n Hmod), app_assoc. reflexivity.
    + assert (Hk : (N.succ n / 5000 = n / 5000)%N) by divlia.
      rewrite Hk. cbn [map]. rewrite app_nil_r. repeat split. lia.
Qed.

Lemma idle_from (k : N) (m : Dashboard.Mounted) :
  Timers.timers (Dashboard.clock m) = [] ->
  Timers.timers (Dashboard.clock (Dashboard.advance k m)) = []
  /\ Timers.now (Dashboard.clock (Dashboard.advance k m)) = (Timers.now (Dashboard.clock m) + k)%N
  /\ Dashboard.interval (Dashboard.advance k m) = Dashboard.interval m
  /\ Dashboard.invoked (Dashboard.advance k m) = Dashboard.invoked m.
Proof.
  intros H. induction k as [|k IH] using N.peano_ind; [repeat split; auto; cbn; lia|].
  unfold Dashboard.advance in *. rewrite N.iter_succ. destruct IH as (Ht & Hn & Hi & Hv).
  set (m' := N.iter k Dashboard.tick m) in *.
  unfold Dashboard.tick, Timers.tick.
  cbn [Dashboard.clock Dashboard.invoked Dashboard.interval Timers.timers Timers.now].
  rewrite Ht, Hi, Hv, Hn. cbn. rewrite app_nil_r. repeat split; auto. lia.
Qed.

Lemma visit_from (m : Dashboard.Mounted) (v : N * N) :
  Timers.timers (Dashboard.clock m) = [] ->
  let m' := DashboardVisits.visit m v in
  Timers.timers (Dashboard.clock m') = []
  /\ Timers.now (Dashboard.clock m') = (Timers.now (Dashboard.clock m) + fst v + snd v)%N
  /\ Dashboard.interval m' = None
  /\ Dashboard.invoked m'
     = Dashboard.invoked m
       ++ pollTimes (Timers.now (Dashboard.clock m)) (S (N.to_nat (fst v / 5000))).
Proof.
  intros Hno. destruct v as [stay away]. cbn [fst snd]. unfold DashboardVisits.visit.
  cbn [fst snd].
  destruct (polling_from m stay Hno) as (Hnow & Htm & Hid & Hint & Hinv).
  set (m1 := Dashboard.advance stay (Dashboard.mount m)) in *.
  assert (Hclear : Timers.timers (Dashboard.clock (Dashboard.unmount m1)) = []).
  { unfold Dashboard.unmount. rewrite Hint.
    cbn [Dashboard.clock Timers.clearInterval Timers.timers]. rewrite Htm.
    cbn. rewrite Nat.eqb_refl. reflexivity. }
  destruct (idle_from away _ Hclear) as (Ht & Hn & Hi & Hv).
  rewrite Ht, Hn, Hi, Hv. unfold Dashboard.unmount. rewrite Hint.
  cbn [Dashboard.clock Dashboard.interval Dashboard.invoked Timers.clearInterval Timers.now].
  rewrite Hnow, Hinv. auto.
Qed.

(** X22: however often the Dashboard is opened and closed, no timer is
    left behind: after any sequence of visits there is no timer, and
    loadDashboardData was invoked exactly at each mount and every 5000 ms
    while mounted, never while the page was closed. *)
Theorem no_timer_survives_a_visit (vs : list (N * N)) (t0 : N) :
  let m := DashboardVisits.visits vs (Dashboard.opened t0) in
  Dashboard.invoked m = visitTimes t0 vs
  /\ Timers.timers (Dashboard.clock m) = []
  /\ Timers.now (Dashboard.clock m) = fold_left (fun t v => (t + fst v + snd v)%N) vs t0.
Proof.
  cbn zeta.
  assert (H : forall m, Timers.timers (Dashboard.clock m) = [] ->
    Dashboard.invoked (DashboardVisits.visits vs m)
      = Dashboard.invoked m ++ visitTimes (Timers.now (Dashboard.clock m)) vs
    /\ Timers.timers (Dashboard.clock (DashboardVisits.visits vs m)) = []
    /\ Timers.now (Dashboard.clock (DashboardVisits.visits vs m))
       = fold_left (fun t v => (t + fst v + snd v)%N) vs (Timers.now (Dashboard.clock m))).
  { induction vs as [|v vs IH]; intros m Hno.
    - cbn. rewrite app_nil_r. auto.
    - destruct (visit_from m v Hno) as (Ht & Hn & _ & Hv).
      unfold DashboardVisits.visits in *. cbn [fold_left].
      destruct (IH _ Ht) as (IH1 & IH2 & IH3).
      rewrite IH1, IH2, IH3, Hv, Hn. destruct v as [stay away].
      cbn [visitTimes fst snd]. rewrite <- app_assoc. auto. }
  apply (H (Dashboard.opened t0)). reflexivity.
Qed.
